(** * SyncStream: the room-state service and the host / listener reconcilers

    A shallow embedding of the synchronisation core of the application:

    - [Types]        the records of [types.ts] (src/unnamed/part_001);
    - [Env]          the browser a tab runs in (localStorage, sessionStorage,
                     [Date.now()], [Math.random()]) as an explicit state, with
                     a small state monad for the service calls;
    - [roomService]  [generateId], [getRoomState], [createRoom], [joinRoom],
                     [updateRoomState] and the storage-event handler of
                     [subscribeToRoom] (src/unnamed/part_006);
    - [useYouTube]   the player hook: the controls, [initPlayer] and the
                     effect cleanup, in its two versions
                     (src/unnamed/part_000, then src/hooks/useYouTube.tsx);
    - [Room]         the page component: its state, the init effect, the host
                     heartbeat, the listener sync loop and the host handlers,
                     in its two versions (the two documents of
                     src/unnamed/part_002), as a step function over events.

    Modelling conventions.  A [number] held in a record, in the store or
    returned by the player is finite and is written as the rational it
    denotes ([Q]); [Date.now()] is an integer number of milliseconds.
    Arithmetic on numbers is the engine's: IEEE 754 binary64 with rounding
    to nearest, ties to even ([PrimFloat]), entered through [toDouble]; a
    comparison of doubles is false when an operand is NaN.  A value kept in
    localStorage is held decoded: [JSON.parse] after [JSON.stringify] is the
    identity on records of finite numbers, strings and booleans.  Calls made
    on the player controls are collected in the order they are made. *)

From Stdlib Require Import Floats QArith ZArith List.
From stdpp Require Import gmap strings.
Import ListNotations.

(* ===================================================================== *)
(** ** types.ts *)
(* ===================================================================== *)

Module Types.

Definition number : Type := Q.

Record RoomState : Type := mkRoomState {
  roomId : string;
  hostId : string;
  videoId : string;
  isPlaying : bool;
  timestamp : number;     (* video playback time in seconds *)
  lastUpdated : number    (* Date.now() when the update occurred *)
}.

(** [Partial<RoomState>]: every key may be absent. *)
Record PartialRoomState : Type := mkPartial {
  roomId_opt : option string;
  hostId_opt : option string;
  videoId_opt : option string;
  isPlaying_opt : option bool;
  timestamp_opt : option number;
  lastUpdated_opt : option number
}.

(** The binary64 value a number is held as: the double nearest to [q],
    ties to even, with overflow to an infinity.  It is the correctly rounded
    IEEE division of the numerator by the denominator, both taken as
    integers that are not rounded first; a rational that is a double is
    mapped to itself. *)
Definition toDouble (q : number) : float :=
  SF2Prim (SFdiv prec emax
             match Qnum q with
             | Z0 => S754_zero false
             | Zpos n => S754_finite false n 0
             | Zneg n => S754_finite true n 0
             end
             (S754_finite false (Qden q) 0)).

(** A call on [PlayerControls] that commands the player.  The argument of
    [seekTo] is the double the caller computed. *)
Inductive Command : Type :=
| play
| pause
| seekTo (seconds : float).

End Types.
Import Types.

(* ===================================================================== *)
(** ** The browser environment *)
(* ===================================================================== *)

Module Env.

Record Browser : Type := mkBrowser {
  localStorage : gmap string RoomState;
  sessionStorage : gmap string string;
  clock : Z;                 (* what Date.now() returns, in ms *)
  entropy : nat -> string;   (* the n-th Math.random().toString(36).substring(2, 9) *)
  drawn : nat                (* how many of them were consumed *)
}.

Definition Eff (A : Type) : Type := Browser -> A * Browser.

Definition ret {A} (a : A) : Eff A := fun w => (a, w).

Definition bind {A B} (m : Eff A) (k : A -> Eff B) : Eff B :=
  fun w => let (a, w') := m w in k a w'.

Definition Date_now : Eff number :=
  fun w => (inject_Z (clock w), w).

Definition Math_random_base36 : Eff string :=
  fun w => (entropy w (drawn w),
            mkBrowser (localStorage w) (sessionStorage w) (clock w)
                      (entropy w) (S (drawn w))).

Definition localStorage_getItem (key : string) : Eff (option RoomState) :=
  fun w => (localStorage w !! key, w).

Definition localStorage_setItem (key : string) (value : RoomState) : Eff unit :=
  fun w => (tt, mkBrowser (<[key := value]> (localStorage w)) (sessionStorage w)
                          (clock w) (entropy w) (drawn w)).

Definition sessionStorage_getItem (key : string) : Eff (option string) :=
  fun w => (sessionStorage w !! key, w).

Definition sessionStorage_setItem (key value : string) : Eff unit :=
  fun w => (tt, mkBrowser (localStorage w) (<[key := value]> (sessionStorage w))
                          (clock w) (entropy w) (drawn w)).

End Env.
Import Env.

Declare Scope eff_scope.
Delimit Scope eff_scope with eff.
Notation "'let*' x ':=' m 'in' k" := (bind m (fun x => k))
  (at level 10, x name, m at level 100, k at level 200) : eff_scope.
Notation "m ';;;' k" := (bind m (fun _ => k))
  (at level 100, k at level 200, right associativity) : eff_scope.

(* ===================================================================== *)
(** ** services/roomService.ts *)
(* ===================================================================== *)

Module roomService.

Definition STORAGE_PREFIX : string := "syncstream_room_".

Definition generateId : Eff string := Math_random_base36.

Definition getRoomState (roomId : string) : Eff (option RoomState) :=
  localStorage_getItem (STORAGE_PREFIX +:+ roomId).

Definition createRoom (videoId : string) : Eff RoomState :=
  (let* roomId := generateId in
   let* hostId := generateId in
   let* now := Date_now in
   let initialState := mkRoomState roomId hostId videoId false 0%Q now in
   localStorage_setItem (STORAGE_PREFIX +:+ roomId) initialState ;;;
   sessionStorage_setItem ("role_" +:+ roomId) "host" ;;;
   sessionStorage_setItem "userId" hostId ;;;
   ret initialState)%eff.

Record JoinResult : Type := mkJoinResult {
  success : bool;
  state : option RoomState;
  isHost : bool
}.

(** [!userId] on the result of [sessionStorage.getItem]: [null] and the
    empty string are falsy. *)
Definition falsy (s : option string) : bool :=
  match s with
  | None => true
  | Some s => bool_decide (s = "")
  end.

Definition joinRoom (roomId : string) : Eff JoinResult :=
  (let* state := getRoomState roomId in
   match state with
   | None => ret (mkJoinResult false None false)
   | Some st =>
       let* storedRole := sessionStorage_getItem ("role_" +:+ roomId) in
       let isHost := bool_decide (storedRole = Some "host") in
       let* userId := sessionStorage_getItem "userId" in
       (if falsy userId
        then (let* userId := generateId in
              sessionStorage_setItem "userId" userId)
        else ret tt) ;;;
       ret (mkJoinResult true (Some st) isHost)
   end)%eff.

(** [{ ...current, ...updates, lastUpdated: now }] *)
Definition spread (current : RoomState) (updates : PartialRoomState)
           (now : number) : RoomState :=
  mkRoomState
    (default (roomId current) (roomId_opt updates))
    (default (hostId current) (hostId_opt updates))
    (default (videoId current) (videoId_opt updates))
    (default (isPlaying current) (isPlaying_opt updates))
    (default (timestamp current) (timestamp_opt updates))
    now.

Definition updateRoomState (roomId : string) (updates : PartialRoomState)
  : Eff unit :=
  (let* current := getRoomState roomId in
   match current with
   | None => ret tt
   | Some current =>
       let* now := Date_now in
       let newState := spread current updates now in
       localStorage_setItem (STORAGE_PREFIX +:+ roomId) newState
   end)%eff.

(** The [storage] event another tab's write raises in this one. *)
Record StorageEvent : Type := mkStorageEvent {
  key : option string;
  newValue : option RoomState
}.

(** The handler [subscribeToRoom] registers: the state handed to the
    callback, if the event concerns the room. *)
Definition handler (roomId : string) (e : StorageEvent) : option RoomState :=
  if bool_decide (key e = Some (STORAGE_PREFIX +:+ roomId))
  then newValue e
  else None.

End roomService.
Import roomService.

(* ===================================================================== *)
(** ** Exceptions *)
(* ===================================================================== *)

Module Exn.

(** How a block of statements ends: normally, or by a thrown error. *)
Inductive Completion (A : Type) : Type :=
| Normal (a : A)
| Throw (e : string).
Arguments Normal {A} a.
Arguments Throw {A} e.

Definition andThen {A B} (m : Completion A) (k : A -> Completion B)
  : Completion B :=
  match m with
  | Normal a => k a
  | Throw e => Throw e
  end.

(** [try { body } catch (e) { handler(e) }] *)
Definition try_catch {A} (body : Completion A) (handler : string -> Completion A)
  : Completion A :=
  match body with
  | Normal a => Normal a
  | Throw e => handler e
  end.

End Exn.
Import Exn.

(* ===================================================================== *)
(** ** hooks/useYouTube.tsx, in its two versions *)
(* ===================================================================== *)

Module useYouTube.

(** The [YT.Player] instance, as far as the hook uses it.  The player is
    an external collaborator: what its methods return is data here. *)
Record YTPlayer : Type := mkPlayer {
  yt_getCurrentTime : number;
  yt_getPlayerState : Z;       (* 1 playing, 2 paused, -1 unstarted, 3 buffering *)
  yt_destroy : option string   (* [Some msg]: destroy() throws Error(msg) *)
}.

Record Hook : Type := mkHook {
  playerRef : option YTPlayer;   (* playerRef.current *)
  isReady : bool
}.

Definition initialHook : Hook := mkHook None false.

(** [playerRef.current.destroy()] *)
Definition destroy (p : YTPlayer) : Completion unit :=
  match yt_destroy p with
  | Some msg => Throw msg
  | None => Normal tt
  end.

(** The effect cleanup of the first version: [destroy()] is called bare. *)
Definition cleanup_v1 (h : Hook) : Completion Hook :=
  match playerRef h with
  | Some p => andThen (destroy p) (fun _ => Normal h)
  | None => Normal h
  end.

(** The effect cleanup of the second version: [destroy()] sits in a
    [try] whose [catch] is empty, the ref is cleared, and [isReady] is
    reset. *)
Definition cleanup_v2 (h : Hook) : Completion Hook :=
  andThen
    (match playerRef h with
     | Some p =>
         andThen (try_catch (destroy p) (fun _ => Normal tt))
                 (fun _ => Normal (mkHook None (isReady h)))
     | None => Normal h
     end)
    (fun h' => Normal (mkHook (playerRef h') false)).

(** [initPlayer], once the iframe API is loaded, building the player [p].
    The second version does nothing for an empty [videoId] or when a
    player is already held. *)
Definition initPlayer_v1 (p : YTPlayer) (h : Hook) : Hook :=
  mkHook (Some p) (isReady h).

Definition initPlayer_v2 (videoId : string) (p : YTPlayer) (h : Hook) : Hook :=
  if bool_decide (videoId = "") then h
  else match playerRef h with
       | Some _ => h
       | None => mkHook (Some p) (isReady h)
       end.

(** The player's [onReady] event. *)
Definition onReady (h : Hook) : Hook := mkHook (playerRef h) true.

(** [controls.getCurrentTime]: [playerRef.current?.getCurrentTime() || 0] *)
Definition getCurrentTime (ref : option YTPlayer) : number :=
  match ref with
  | Some p => if Qeq_bool (yt_getCurrentTime p) 0 then 0%Q else yt_getCurrentTime p
  | None => 0%Q
  end.

(** [controls.getPlayerState]: [playerRef.current?.getPlayerState()],
    [None] standing for [undefined]. *)
Definition getPlayerState (ref : option YTPlayer) : option Z :=
  yt_getPlayerState <$> ref.

End useYouTube.
Import useYouTube.

(* ===================================================================== *)
(** ** pages/Room.tsx, in its two versions *)
(* ===================================================================== *)

Module Room.

(** [V1] is the first version of the page (drift tolerance 0.5 s, a host
    heartbeat every 2000 ms, used with the first version of the hook);
    [V2] the second (tolerance 0.8 s, a scrubber for the host and an
    interval of 500 ms, used with the second version of the hook).  State
    that only feeds the markup ([duration], the copy-link feedback) is left
    out.  An interval is taken to be set exactly when the guard at the head
    of its effect passes on the current state. *)
Inductive Version : Type := V1 | V2.

Record Component : Type := mkComponent {
  roomId : option string;        (* useParams: the :roomId of the route *)
  roomState : option RoomState;  (* useState<RoomState | null>(null) *)
  isHost : bool;
  userInteracted : bool;
  error : option string;
  localCurrentTime : number;     (* V2 only *)
  isDragging : bool;             (* V2 only: isDraggingRef.current *)
  subscribed : bool;             (* the storage handler is registered *)
  hook : Hook                    (* what useYouTube holds *)
}.

Definition initial (roomId : option string) : Component :=
  mkComponent roomId None false false None 0%Q false false initialHook.

Definition set_roomState (x : option RoomState) (c : Component) : Component :=
  mkComponent (roomId c) x (isHost c) (userInteracted c) (error c)
              (localCurrentTime c) (isDragging c) (subscribed c) (hook c).
Definition set_isHost (x : bool) (c : Component) : Component :=
  mkComponent (roomId c) (roomState c) x (userInteracted c) (error c)
              (localCurrentTime c) (isDragging c) (subscribed c) (hook c).
Definition set_userInteracted (x : bool) (c : Component) : Component :=
  mkComponent (roomId c) (roomState c) (isHost c) x (error c)
              (localCurrentTime c) (isDragging c) (subscribed c) (hook c).
Definition set_error (x : option string) (c : Component) : Component :=
  mkComponent (roomId c) (roomState c) (isHost c) (userInteracted c) x
              (localCurrentTime c) (isDragging c) (subscribed c) (hook c).
Definition set_localCurrentTime (x : number) (c : Component) : Component :=
  mkComponent (roomId c) (roomState c) (isHost c) (userInteracted c) (error c)
              x (isDragging c) (subscribed c) (hook c).
Definition set_isDragging (x : bool) (c : Component) : Component :=
  mkComponent (roomId c) (roomState c) (isHost c) (userInteracted c) (error c)
              (localCurrentTime c) x (subscribed c) (hook c).
Definition set_subscribed (x : bool) (c : Component) : Component :=
  mkComponent (roomId c) (roomState c) (isHost c) (userInteracted c) (error c)
              (localCurrentTime c) (isDragging c) x (hook c).
Definition set_hook (x : Hook) (c : Component) : Component :=
  mkComponent (roomId c) (roomState c) (isHost c) (userInteracted c) (error c)
              (localCurrentTime c) (isDragging c) (subscribed c) x.

(** [roomId] as a condition: [undefined] and the empty string are falsy. *)
Definition truthy (s : option string) : option string :=
  match s with
  | Some s => if bool_decide (s = "") then None else Some s
  | None => None
  end.

Definition notFound (v : Version) : string :=
  match v with
  | V1 => "Room not found. It may have expired or never existed."
  | V2 => "Room not found or expired."
  end.

(** *** Initialize Room *)
Definition initEffect (v : Version) (c : Component) : Eff Component :=
  match truthy (roomId c) with
  | None => ret c
  | Some rid =>
      (let* r := joinRoom rid in
       match success r, state r with
       | true, Some st =>
           let c := set_roomState (Some st) c in
           let c := set_isHost (roomService.isHost r) c in
           let c := match v with
                    | V1 => c
                    | V2 => if roomService.isHost r
                            then set_userInteracted true c else c
                    end in
           ret (set_subscribed true c)
       | _, _ => ret (set_error (Some (notFound v)) c)
       end)%eff
  end.

(** The callback handed to [subscribeToRoom]. *)
Definition onStorage (c : Component) (e : StorageEvent) : Component :=
  match subscribed c, truthy (roomId c) with
  | true, Some rid =>
      match handler rid e with
      | Some newState => set_roomState (Some newState) c
      | None => c
      end
  | _, _ => c
  end.

(** The object literals the host writes. *)
Definition playingAt (b : bool) (t : number) : PartialRoomState :=
  mkPartial None None None (Some b) (Some t) None.
Definition timestampOnly (t : number) : PartialRoomState :=
  mkPartial None None None None (Some t) None.

(** *** The [onStateChange] callback given to the hook

    The callback closes over the render in which the player was built; what
    it tests ([isHost], [roomId], a room state being held) is the same from
    then on. *)
Definition onStateChange (c : Component) (data : Z) (currentTime : number)
  : Eff unit :=
  match isHost c, truthy (roomId c), roomState c with
  | true, Some rid, Some _ =>
      if (data =? 1)%Z then updateRoomState rid (playingAt true currentTime)
      else if (data =? 2)%Z then updateRoomState rid (playingAt false currentTime)
      else ret tt
  | _, _, _ => ret tt
  end.

(** *** HOST: the periodic callback *)
Definition heartbeatInterval (v : Version) : Z :=
  match v with V1 => 2000 | V2 => 500 end.

(** Whether the interval is set: the guard at the head of the effect. *)
Definition heartbeatLive (v : Version) (c : Component) : bool :=
  match v with
  | V1 => isHost c && bool_decide (is_Some (truthy (roomId c))) && isReady (hook c)
  | V2 => isReady (hook c)
  end.

(** V1: the interval callback of the heartbeat effect. *)
Definition heartbeat (rid : string) (c : Component) : Eff unit :=
  let currentTime := getCurrentTime (playerRef (hook c)) in
  if bool_decide (getPlayerState (playerRef (hook c)) = Some 1%Z)
  then updateRoomState rid (timestampOnly currentTime)
  else ret tt.

(** V2: the interval callback; the block under the host condition is
    empty in the source. *)
Definition updateUIAndHostSync (c : Component) : Eff Component :=
  let time := getCurrentTime (playerRef (hook c)) in
  let c := if isDragging c then c else set_localCurrentTime time c in
  if isHost c && bool_decide (is_Some (truthy (roomId c)))
     && bool_decide (getPlayerState (playerRef (hook c)) = Some 1%Z)
  then ret c
  else ret c.

(** *** LISTENER: the sync loop *)
Definition syncInterval (v : Version) : Z := 1000.

#[warnings="-inexact-float"]
Definition MAX_DRIFT (v : Version) : float :=
  match v with V1 => 0.5%float | V2 => 0.8%float end.

Definition syncLive (c : Component) : bool :=
  negb (isHost c) && bool_decide (is_Some (roomState c))
  && isReady (hook c) && userInteracted c.

(** Where the player should be at [now]: [roomState.timestamp], to which
    [(Date.now() - roomState.lastUpdated) / 1000] is added while the room is
    playing.  The subtraction, the division and the addition are those of
    doubles, each rounded. *)
Definition targetTime (roomState : RoomState) (now : number) : float :=
  let targetTime := toDouble (timestamp roomState) in
  if isPlaying roomState
  then let timePassed :=
         ((toDouble now - toDouble (lastUpdated roomState)) / 1000)%float in
       (targetTime + timePassed)%float
  else targetTime.

(** [drift > MAX_DRIFT] is the comparison of doubles [MAX_DRIFT <? drift]. *)
Definition checkSync (v : Version) (roomState : RoomState)
           (ref : option YTPlayer) (now : number) : list Command :=
  let playerState := getPlayerState ref in
  let currentTime := toDouble (getCurrentTime ref) in
  let targetTime := targetTime roomState now in
  let drift := abs (currentTime - targetTime)%float in
  (if (MAX_DRIFT v <? drift)%float then [seekTo targetTime] else [])
  ++
  (if isPlaying roomState
      && negb (bool_decide (playerState = Some 1%Z))
      && negb (bool_decide (playerState = Some 3%Z))
   then [play]
   else if negb (isPlaying roomState) && bool_decide (playerState = Some 1%Z)
   then [pause]
   else []).

(** *** The host's controls *)

(** V1 *)
Definition handleHostPlay (c : Component) : Eff (list Command) :=
  if negb (isReady (hook c)) then ret []
  else match truthy (roomId c) with
       | Some rid =>
           (updateRoomState rid
              (playingAt true (getCurrentTime (playerRef (hook c)))) ;;;
            ret [play])%eff
       | None => ret [play]
       end.

Definition handleHostPause (c : Component) : Eff (list Command) :=
  if negb (isReady (hook c)) then ret []
  else match truthy (roomId c) with
       | Some rid =>
           (updateRoomState rid
              (playingAt false (getCurrentTime (playerRef (hook c)))) ;;;
            ret [pause])%eff
       | None => ret [pause]
       end.

(** V2 *)
Definition handleHostPlayPause (c : Component) : Eff (list Command) :=
  match isReady (hook c), truthy (roomId c), roomState c with
  | true, Some rid, Some rs =>
      if isPlaying rs
      then (updateRoomState rid
              (playingAt false (getCurrentTime (playerRef (hook c)))) ;;;
            ret [pause])%eff
      else (updateRoomState rid
              (playingAt true (getCurrentTime (playerRef (hook c)))) ;;;
            ret [play])%eff
  | _, _, _ => ret []
  end.

Definition handleSeekStart (c : Component) : Component :=
  set_isDragging true c.

Definition handleSeekChange (time : number) (c : Component) : Component :=
  set_localCurrentTime time c.

Definition handleSeekEnd (time : number) (c : Component)
  : Eff (Component * list Command) :=
  match truthy (roomId c) with
  | None => ret (c, [])
  | Some rid =>
      (updateRoomState rid (timestampOnly time) ;;;
       ret (set_isDragging false c, [seekTo (toDouble time)]))%eff
  end.

(** *** What is on screen *)
Definition mainView (c : Component) : bool :=
  bool_decide (error c = None) && bool_decide (is_Some (roomState c)).
Definition overlayShown (c : Component) : bool :=
  mainView c && negb (isHost c) && negb (userInteracted c).
Definition hostControlsShown (c : Component) : bool :=
  mainView c && isHost c.

(** *** The component as a machine *)

Inductive Event : Type :=
| RemoteWrite (key : string) (newValue : option RoomState)
    (* another tab sets or removes a localStorage key *)
| Elapse (ms : Z)                    (* the wall clock moves *)
| ApiLoaded (p : YTPlayer)           (* initPlayer runs and builds p *)
| PlayerReady                        (* the player's onReady *)
| PlayerStateChange (p : YTPlayer)   (* the player's onStateChange, now at p *)
| PlayerProgress (p : YTPlayer)      (* the player moves on, no event *)
| HookCleanup                        (* the hook's effect cleanup *)
| ClickJoin                          (* the overlay's button *)
| SyncTick                           (* the listener's interval fires *)
| HeartbeatTick                      (* the host's interval fires *)
| ClickPlayPause                     (* the host's play/pause button *)
| SeekStart
| SeekChange (time : number)
| SeekEnd (time : number).           (* the host's scrubber, V2 *)

(** What the event does to the browser by itself. *)
Definition environment (e : Event) (w : Browser) : Browser :=
  match e with
  | RemoteWrite key (Some s) =>
      mkBrowser (<[key := s]> (localStorage w)) (sessionStorage w)
                (clock w) (entropy w) (drawn w)
  | RemoteWrite key None =>
      mkBrowser (delete key (localStorage w)) (sessionStorage w)
                (clock w) (entropy w) (drawn w)
  | Elapse ms =>
      mkBrowser (localStorage w) (sessionStorage w)
                (clock w + ms) (entropy w) (drawn w)
  | _ => w
  end.

Definition cleanup (v : Version) (h : Hook) : Completion Hook :=
  match v with
  | V1 => cleanup_v1 h
  | V2 => cleanup_v2 h
  end.

Definition initPlayer (v : Version) (c : Component) (p : YTPlayer) : Hook :=
  match v with
  | V1 => initPlayer_v1 p (hook c)
  | V2 => initPlayer_v2 (from_option videoId "" (roomState c)) p (hook c)
  end.

Definition withPlayer (p : YTPlayer) (c : Component) : Component :=
  match playerRef (hook c) with
  | Some _ => set_hook (mkHook (Some p) (isReady (hook c))) c
  | None => c
  end.

(** The code the event runs, apart from the hook's cleanup. *)
Definition react (v : Version) (e : Event) (c : Component)
  : Eff (Component * list Command) :=
  match e with
  | RemoteWrite key newValue =>
      ret (onStorage c (mkStorageEvent (Some key) newValue), [])
  | Elapse _ => ret (c, [])
  | ApiLoaded p => ret (set_hook (initPlayer v c p) c, [])
  | PlayerReady =>
      match playerRef (hook c) with
      | Some _ => ret (set_hook (onReady (hook c)) c, [])
      | None => ret (c, [])
      end
  | PlayerStateChange p =>
      match playerRef (hook c) with
      | Some _ =>
          (onStateChange c (yt_getPlayerState p) (yt_getCurrentTime p) ;;;
           ret (withPlayer p c, []))%eff
      | None => ret (c, [])
      end
  | PlayerProgress p => ret (withPlayer p c, [])
  | HookCleanup => ret (c, [])
  | ClickJoin =>
      if overlayShown c then ret (set_userInteracted true c, [])
      else ret (c, [])
  | SyncTick =>
      match syncLive c, roomState c with
      | true, Some rs =>
          (let* now := Date_now in
           ret (c, checkSync v rs (playerRef (hook c)) now))%eff
      | _, _ => ret (c, [])
      end
  | HeartbeatTick =>
      if heartbeatLive v c
      then match v with
           | V1 => match truthy (roomId c) with
                   | Some rid => (heartbeat rid c ;;; ret (c, []))%eff
                   | None => ret (c, [])
                   end
           | V2 => (let* c' := updateUIAndHostSync c in ret (c', []))%eff
           end
      else ret (c, [])
  | ClickPlayPause =>
      if hostControlsShown c
      then match v with
           | V1 => match roomState c with
                   | Some rs =>
                       (let* cmds := (if isPlaying rs then handleHostPause c
                                      else handleHostPlay c) in
                        ret (c, cmds))%eff
                   | None => ret (c, [])
                   end
           | V2 => (let* cmds := handleHostPlayPause c in ret (c, cmds))%eff
           end
      else ret (c, [])
  | SeekStart =>
      match v with
      | V2 => if hostControlsShown c then ret (handleSeekStart c, [])
              else ret (c, [])
      | V1 => ret (c, [])
      end
  | SeekChange time =>
      match v with
      | V2 => if hostControlsShown c then ret (handleSeekChange time c, [])
              else ret (c, [])
      | V1 => ret (c, [])
      end
  | SeekEnd time =>
      match v with
      | V2 => if hostControlsShown c then handleSeekEnd time c
              else ret (c, [])
      | V1 => ret (c, [])
      end
  end.

(** One event: the new component, the commands sent to the player and the
    browser afterwards, or the error that escapes. *)
Definition step (v : Version) (e : Event) (c : Component) (w : Browser)
  : Completion (Component * list Command * Browser) :=
  match e with
  | HookCleanup =>
      andThen (cleanup v (hook c)) (fun h => Normal (set_hook h c, [], w))
  | _ =>
      let (r, w') := react v e c (environment e w) in
      Normal (r, w')
  end.

(** The component before each event and the commands the event sent; an
    escaping error ends the session. *)
Fixpoint trace (v : Version) (events : list Event) (c : Component)
         (w : Browser) : list (Component * list Command) :=
  match events with
  | [] => []
  | e :: events =>
      match step v e c w with
      | Normal (c', cmds, w') => (c, cmds) :: trace v events c' w'
      | Throw _ => [(c, [])]
      end
  end.

(** Where the events leave the component and the browser. *)
Fixpoint exec (v : Version) (events : list Event) (c : Component)
         (w : Browser) : Completion (Component * Browser) :=
  match events with
  | [] => Normal (c, w)
  | e :: events =>
      andThen (step v e c w) (fun '(c', _, w') => exec v events c' w')
  end.

(** Opening the page at [/room/:roomId]. *)
Definition mount (v : Version) (roomId : option string) : Eff Component :=
  initEffect v (initial roomId).

End Room.

Import Room.

(* ===================================================================== *)
(** ** Worked inputs *)
(* ===================================================================== *)

Module Demo.

Definition fixedEntropy : nat -> string :=
  fun n => match n with
           | O => "k3x9q2a"
           | S O => "h7m1z0c"
           | _ => "u5t8w4e"
           end.

Definition emptyBrowser : Browser :=
  mkBrowser ∅ ∅ 1700000000000 fixedEntropy 0.

(** A room as [createRoom "abc123"] leaves it, later set playing at 10 s. *)
Definition room : RoomState :=
  mkRoomState "k3x9q2a" "h7m1z0c" "abc123" true 10%Q (inject_Z 1700000000000).

Definition pausedRoom : RoomState :=
  mkRoomState "k3x9q2a" "h7m1z0c" "abc123" false (277 # 5)%Q
              (inject_Z 1700000000000).

Definition hostBrowser : Browser :=
  mkBrowser {[ STORAGE_PREFIX +:+ "k3x9q2a" := room ]}
            {[ "role_k3x9q2a" := "host"; "userId" := "h7m1z0c" ]}
            1700000003000 fixedEntropy 2.

(** A player at 12.5 s, playing, whose [destroy] works. *)
Definition playingPlayer : YTPlayer := mkPlayer (25 # 2)%Q 1 None.

(** A player at 10.2 s, playing. *)
Definition laggingPlayer : YTPlayer := mkPlayer (51 # 5)%Q 1 None.

(** A player whose [destroy] throws. *)
Definition brokenPlayer : YTPlayer :=
  mkPlayer 0%Q (-1) (Some "The YouTube player is not attached to the DOM.").

Definition hostComponent : Component :=
  mkComponent (Some "k3x9q2a") (Some room) true true None 0%Q false true
              (mkHook (Some playingPlayer) true).

Definition listenerComponent : Component :=
  mkComponent (Some "k3x9q2a") (Some room) false true None 0%Q false true
              (mkHook (Some laggingPlayer) true).

End Demo.

(* ===================================================================== *)
(** ** Properties of the service *)
(* ===================================================================== *)

Section Keys.

Lemma append_inj (p a b : string) : p +:+ a = p +:+ b -> a = b.
Proof.
  induction p as [|ch p IH]; simpl; intros H.
  - exact H.
  - injection H as H. now apply IH.
Qed.

Lemma room_key_inj (a b : string) :
  STORAGE_PREFIX +:+ a = STORAGE_PREFIX +:+ b -> a = b.
Proof. apply append_inj. Qed.

Lemma role_key_not_userId (rid : string) : "userId" <> "role_" +:+ rid.
Proof. simpl. discriminate. Qed.

End Keys.

Section Service.

Lemma getRoomState_pure (rid : string) (w : Browser) :
  getRoomState rid w = (localStorage w !! (STORAGE_PREFIX +:+ rid), w).
Proof. reflexivity. Qed.

Lemma updateRoomState_present (rid : string) (p : PartialRoomState)
      (w : Browser) (cur : RoomState) :
  localStorage w !! (STORAGE_PREFIX +:+ rid) = Some cur ->
  updateRoomState rid p w =
  (tt, mkBrowser (<[STORAGE_PREFIX +:+ rid := spread cur p (inject_Z (clock w))]>
                    (localStorage w))
                 (sessionStorage w) (clock w) (entropy w) (drawn w)).
Proof.
  intros H. unfold updateRoomState, bind, getRoomState, localStorage_getItem.
  rewrite H. reflexivity.
Qed.

Lemma updateRoomState_absent (rid : string) (p : PartialRoomState)
      (w : Browser) :
  localStorage w !! (STORAGE_PREFIX +:+ rid) = None ->
  updateRoomState rid p w = (tt, w).
Proof.
  intros H. unfold updateRoomState, bind, getRoomState, localStorage_getItem.
  rewrite H. reflexivity.
Qed.

Lemma spread_twice (s : RoomState) (p : PartialRoomState) (now : number) :
  spread (spread s p now) p now = spread s p now.
Proof.
  destruct p as [r h v i t l]; unfold spread; simpl.
  destruct r, h, v, i, t; reflexivity.
Qed.

End Service.

(** C4.  On an existing room, [updateRoomState roomId partial] stores the
    current state with exactly the fields of [partial] replaced and
    [lastUpdated] set to the clock of the write; [getRoomState roomId] then
    returns that state; every other key of localStorage, sessionStorage, the
    clock and the random source are as before. *)
Theorem updateRoomState_merges
        (w : Browser) (rid : string) (p : PartialRoomState) (cur : RoomState) :
  fst (getRoomState rid w) = Some cur ->
  exists s' : RoomState,
    fst (getRoomState rid (snd (updateRoomState rid p w))) = Some s'
    /\ Types.roomId s' = from_option id (Types.roomId cur) (roomId_opt p)
    /\ hostId s' = from_option id (hostId cur) (hostId_opt p)
    /\ videoId s' = from_option id (videoId cur) (videoId_opt p)
    /\ isPlaying s' = from_option id (isPlaying cur) (isPlaying_opt p)
    /\ timestamp s' = from_option id (timestamp cur) (timestamp_opt p)
    /\ lastUpdated s' = fst (Date_now w)
    /\ (forall other : string, other <> rid ->
          fst (getRoomState other (snd (updateRoomState rid p w)))
          = fst (getRoomState other w))
    /\ sessionStorage (snd (updateRoomState rid p w)) = sessionStorage w
    /\ clock (snd (updateRoomState rid p w)) = clock w
    /\ drawn (snd (updateRoomState rid p w)) = drawn w.
Proof.
  rewrite getRoomState_pure. simpl. intros Hcur.
  rewrite (updateRoomState_present rid p w cur Hcur). simpl.
  exists (spread cur p (inject_Z (clock w))).
  unfold getRoomState, localStorage_getItem. simpl.
  rewrite lookup_insert_eq.
  repeat split.
  intros other Hne. apply lookup_insert_ne.
  intros Heq. apply Hne. symmetry. now apply room_key_inj.
Qed.

(** The write-then-read scenario: merging [{isPlaying: true, timestamp: 42}]
    into a paused room. *)
Lemma updateRoomState_merges_witness :
  exists s' : RoomState,
    fst (getRoomState "k3x9q2a"
           (snd (updateRoomState "k3x9q2a" (playingAt true 42%Q)
                   (mkBrowser {[ STORAGE_PREFIX +:+ "k3x9q2a" := Demo.pausedRoom ]}
                              ∅ 1700000009000 Demo.fixedEntropy 2)))) = Some s'
    /\ isPlaying s' = true /\ timestamp s' = 42%Q
    /\ lastUpdated s' = inject_Z 1700000009000
    /\ videoId s' = "abc123".
Proof.
  destruct (updateRoomState_merges
              (mkBrowser {[ STORAGE_PREFIX +:+ "k3x9q2a" := Demo.pausedRoom ]}
                         ∅ 1700000009000 Demo.fixedEntropy 2)
              "k3x9q2a" (playingAt true 42%Q) Demo.pausedRoom)
    as (s' & Hread & _ & _ & Hvid & Hplay & Hts & Hlast & _).
  - reflexivity.
  - exists s'. repeat split; assumption.
Defined.

(** C5.  The merge is idempotent under one clock reading: on states,
    [{...{...s, ...p, lastUpdated: t}, ...p, lastUpdated: t}] is
    [{...s, ...p, lastUpdated: t}]; on the store, [updateRoomState] applied
    twice with the clock unchanged leaves the browser as one application
    does. *)
Theorem merge_idempotent :
  (forall (s : RoomState) (p : PartialRoomState) (now : number),
      spread (spread s p now) p now = spread s p now)
  /\ (forall (rid : string) (p : PartialRoomState) (w : Browser),
        clock (snd (updateRoomState rid p w)) = clock w
        /\ snd (updateRoomState rid p (snd (updateRoomState rid p w)))
           = snd (updateRoomState rid p w)).
Proof.
  split; [exact spread_twice |].
  intros rid p w.
  destruct (localStorage w !! (STORAGE_PREFIX +:+ rid)) as [cur|] eqn:Hcur.
  - rewrite (updateRoomState_present rid p w cur Hcur). simpl.
    split; [reflexivity |].
    erewrite updateRoomState_present by (simpl; apply lookup_insert_eq).
    simpl. rewrite spread_twice. now rewrite insert_insert_eq.
  - rewrite (updateRoomState_absent rid p w Hcur). simpl.
    split; [reflexivity |].
    now rewrite (updateRoomState_absent rid p w Hcur).
Qed.

(** C9.  Where no state is stored for [roomId], [updateRoomState] returns
    normally and leaves the whole browser as it was, whatever the update. *)
Theorem updateRoomState_missing_room_noop
        (w : Browser) (rid : string) (p : PartialRoomState) :
  fst (getRoomState rid w) = None ->
  updateRoomState rid p w = (tt, w)
  /\ fst (getRoomState rid (snd (updateRoomState rid p w))) = None.
Proof.
  rewrite getRoomState_pure. simpl. intros Hnone.
  rewrite (updateRoomState_absent rid p w Hnone). simpl.
  split; [reflexivity | exact Hnone].
Qed.

Lemma updateRoomState_missing_room_noop_witness :
  fst (getRoomState "zzzzzzz" Demo.hostBrowser) = None
  /\ updateRoomState "zzzzzzz" (playingAt true 42%Q) Demo.hostBrowser
     = (tt, Demo.hostBrowser).
Proof.
  split.
  - reflexivity.
  - apply (updateRoomState_missing_room_noop Demo.hostBrowser "zzzzzzz"
                                              (playingAt true 42%Q)).
    reflexivity.
Defined.

(** C10.  [createRoom videoId] returns the state
    [{roomId, hostId, videoId, isPlaying: false, timestamp: 0,
      lastUpdated: Date.now()}] whose two identifiers are the next two draws
    of [generateId]; that state is what [getRoomState roomId] reads back;
    the session is bound as host ([role_<roomId>] is ["host"], [userId] is
    the host id, and [joinRoom roomId] answers with [isHost = true]); no
    other room's entry changes. *)
Theorem createRoom_spec (vid : string) (w : Browser) :
  let s := fst (createRoom vid w) in
  let w' := snd (createRoom vid w) in
  s = mkRoomState (fst (generateId w))
                  (fst (generateId (snd (generateId w))))
                  vid false 0%Q (fst (Date_now w))
  /\ videoId s = vid /\ isPlaying s = false /\ timestamp s = 0%Q
  /\ lastUpdated s = inject_Z (clock w)
  /\ fst (getRoomState (Types.roomId s) w') = Some s
  /\ sessionStorage w' !! ("role_" +:+ Types.roomId s) = Some "host"
  /\ sessionStorage w' !! "userId" = Some (hostId s)
  /\ fst (joinRoom (Types.roomId s) w')
     = mkJoinResult true (Some s) true
  /\ (forall other : string, other <> Types.roomId s ->
        fst (getRoomState other w') = fst (getRoomState other w))
  /\ drawn w' = S (S (drawn w)) /\ clock w' = clock w.
Proof.
  cbv zeta.
  unfold createRoom, joinRoom, getRoomState, generateId, Math_random_base36,
    Date_now, localStorage_setItem, localStorage_getItem,
    sessionStorage_setItem, sessionStorage_getItem, bind, ret.
  cbn [fst snd localStorage sessionStorage clock entropy drawn
       Types.roomId hostId videoId isPlaying timestamp lastUpdated].
  repeat match goal with |- _ /\ _ => split end; try reflexivity.
  - apply lookup_insert_eq.
  - rewrite lookup_insert_ne by apply role_key_not_userId.
    apply lookup_insert_eq.
  - apply lookup_insert_eq.
  - rewrite lookup_insert_eq.
    cbn [fst snd localStorage sessionStorage clock entropy drawn].
    rewrite (lookup_insert_ne _ "userId" ("role_" +:+ entropy w (drawn w)))
      by apply role_key_not_userId.
    rewrite !lookup_insert_eq.
    cbn [falsy].
    destruct (bool_decide (entropy w (S (drawn w)) = "")) eqn:E;
      cbn [fst snd localStorage sessionStorage clock entropy drawn];
      reflexivity.
  - intros other Hne. apply lookup_insert_ne.
    intros Heq. apply Hne. symmetry. now apply room_key_inj.
Qed.

(* ===================================================================== *)
(** ** The order of doubles *)
(* ===================================================================== *)

Section Doubles.

Lemma SFcompare_antisym (x y : spec_float) :
  SFcompare y x = option_map CompOpp (SFcompare x y).
Proof.
  destruct x as [sx | sx | | sx mx ex], y as [sy | sy | | sy my ey];
    cbn; try reflexivity;
    try (destruct sx; reflexivity); try (destruct sy; reflexivity);
    try (destruct sx, sy; reflexivity).
  destruct sx, sy; cbn; try reflexivity.
  - rewrite (Z.compare_antisym ey ex).
    destruct (ey ?= ex)%Z; cbn; try reflexivity.
    change (PosDef.Pos.compare_cont Eq) with Pos.compare.
    rewrite (Pos.compare_antisym my mx). now destruct (my ?= mx)%positive.
  - rewrite (Z.compare_antisym ey ex).
    destruct (ey ?= ex)%Z; cbn; try reflexivity.
    change (PosDef.Pos.compare_cont Eq) with Pos.compare.
    rewrite (Pos.compare_antisym my mx). now destruct (my ?= mx)%positive.
Qed.

(** [x <= y] excludes [y < x]. *)
Lemma leb_not_ltb (x y : float) :
  (x <=? y)%float = true -> (y <? x)%float = false.
Proof.
  rewrite leb_spec, ltb_spec. unfold SFleb, SFltb.
  rewrite (SFcompare_antisym (Prim2SF x) (Prim2SF y)).
  destruct (SFcompare (Prim2SF x) (Prim2SF y)) as [[] |]; cbn; congruence.
Qed.

(** A double is at distance zero from itself, or at no distance at all (an
    infinity, NaN): never farther than a positive bound. *)
Lemma self_distance (bound x : float) :
  (0 <? bound)%float = true -> (bound <? abs (x - x))%float = false.
Proof.
  rewrite !ltb_spec, abs_spec, sub_spec.
  unfold SF64sub. intros Hpos.
  assert (Hd : SFabs (SFsub prec emax (Prim2SF x) (Prim2SF x)) = S754_zero false
               \/ SFabs (SFsub prec emax (Prim2SF x) (Prim2SF x)) = S754_nan).
  { destruct (Prim2SF x) as [s | s | | s m e]; cbn.
    - left. now destruct s.
    - right. now destruct s.
    - now right.
    - left. rewrite Z.sub_diag. reflexivity. }
  change (Prim2SF 0) with (S754_zero false) in Hpos.
  unfold SFltb in *.
  destruct Hd as [-> | ->].
  - rewrite (SFcompare_antisym (S754_zero false) (Prim2SF bound)).
    destruct (SFcompare (S754_zero false) (Prim2SF bound)) as [[] |];
      cbn; congruence.
  - now destruct (Prim2SF bound).
Qed.

(** The two tolerances are positive, and what is farther than the second
    is farther than the first. *)
Lemma MAX_DRIFT_positive (v : Version) : (0 <? MAX_DRIFT v)%float = true.
Proof. now destruct v. Qed.

Lemma MAX_DRIFT_grew (d : float) :
  (MAX_DRIFT V2 <? d)%float = true -> (MAX_DRIFT V1 <? d)%float = true.
Proof.
  rewrite !ltb_spec.
  change (Prim2SF (MAX_DRIFT V1))
    with (S754_finite false 4503599627370496 (-53)).
  change (Prim2SF (MAX_DRIFT V2))
    with (S754_finite false 7205759403792794 (-53)).
  unfold SFltb, SFcompare.
  destruct (Prim2SF d) as [s | s | | s m e]; try easy.
  destruct s; [easy |].
  destruct (Z.compare_spec (-53) e) as [_ | _ | _]; try easy.
  change (PosDef.Pos.compare_cont Eq) with Pos.compare.
  destruct (Pos.compare_spec 7205759403792794 m) as [| Hlt |]; try easy.
  intros _.
  assert (H : (4503599627370496 ?= m)%positive = Lt)
    by (apply Pos.compare_lt_iff; lia).
  now rewrite H.
Qed.

(** [toDouble] on the tolerances, on a clock reading, on integers half-way
    between two doubles (ties go to the even one) and beyond the range. *)
Example toDouble_values :
  toDouble (1 # 2) = MAX_DRIFT V1
  /\ toDouble (4 # 5) = MAX_DRIFT V2
  /\ toDouble (inject_Z 1700000003000) = 1700000003000%float
  /\ toDouble (inject_Z (2 ^ 53 + 1)) = 9007199254740992%float
  /\ toDouble (inject_Z (2 ^ 53 + 3)) = 9007199254740996%float
  /\ toDouble (inject_Z (10 ^ 400)) = infinity.
Proof. vm_compute. split_and!; reflexivity. Qed.

End Doubles.

(* ===================================================================== *)
(** ** Properties of the listener's sync loop *)
(* ===================================================================== *)

Section SyncLoop.

Definition isSeek (cmd : Command) : bool :=
  match cmd with
  | seekTo _ => true
  | _ => false
  end.

(** The two halves of [checkSync]: the drift correction and the
    play/pause reconciliation. *)
Lemma checkSync_halves (v : Version) (rs : RoomState)
      (ref : option YTPlayer) (now : number) :
  exists seeks pp : list Command,
    checkSync v rs ref now = seeks ++ pp
    /\ seeks = (if (MAX_DRIFT v
                    <? abs (toDouble (getCurrentTime ref) - targetTime rs now))%float
                then [seekTo (targetTime rs now)] else [])
    /\ filter isSeek (checkSync v rs ref now) = seeks
    /\ filter (fun cmd => negb (isSeek cmd)) (checkSync v rs ref now) = pp
    /\ pp = (if isPlaying rs
             then if bool_decide (getPlayerState ref = Some 1%Z) then []
                  else if bool_decide (getPlayerState ref = Some 3%Z) then []
                  else [play]
             else if bool_decide (getPlayerState ref = Some 1%Z) then [pause]
                  else []).
Proof.
  unfold checkSync.
  destruct (MAX_DRIFT v <? _)%float;
    destruct (isPlaying rs);
    destruct (bool_decide (getPlayerState ref = Some 1%Z));
    destruct (bool_decide (getPlayerState ref = Some 3%Z));
    cbn; eexists; eexists; repeat split; reflexivity.
Qed.

(** A tick of the listener's interval, when the interval is set, runs
    [checkSync] on the cached room state with the clock read then. *)
Lemma syncTick_runs_checkSync (v : Version) (c : Component) (w : Browser)
      (rs : RoomState) :
  syncLive c = true ->
  roomState c = Some rs ->
  step v SyncTick c w
  = Normal (c, checkSync v rs (playerRef (hook c)) (fst (Date_now w)), w).
Proof.
  intros Hlive Hrs. unfold step, react, environment.
  rewrite Hlive, Hrs. reflexivity.
Qed.

(** Without the interval the tick does nothing. *)
Lemma syncTick_idle (v : Version) (c : Component) (w : Browser) :
  syncLive c = false -> step v SyncTick c w = Normal (c, [], w).
Proof.
  intros Hidle. unfold step, react, environment. rewrite Hidle.
  destruct (roomState c); reflexivity.
Qed.

End SyncLoop.

(** C1.  A tick of a tracking listener sends exactly the commands of
    [checkSync] at the clock's reading [now].  Its target is [timestamp]
    when the cached state is paused and
    [timestamp + (now - lastUpdated) / 1000] when it is playing, computed in
    doubles; a seek is among the commands exactly when the distance between
    the player's position and the target exceeds [MAX_DRIFT], and then it is
    one seek, to the target; when the distance is at most [MAX_DRIFT], and
    whenever it does not exceed it, there is no seek at all. *)
Theorem listener_tick_seek
        (v : Version) (c : Component) (w : Browser) (rs : RoomState) :
  syncLive c = true ->
  roomState c = Some rs ->
  let now := fst (Date_now w) in
  let localPosition := toDouble (getCurrentTime (playerRef (hook c))) in
  let target := targetTime rs now in
  let drift := abs (localPosition - target)%float in
  exists cmds : list Command,
    step v SyncTick c w = Normal (c, cmds, w)
    /\ (isPlaying rs = false -> target = toDouble (timestamp rs))
    /\ (isPlaying rs = true ->
        target
        = (toDouble (timestamp rs)
           + (toDouble now - toDouble (lastUpdated rs)) / 1000)%float)
    /\ (In (seekTo target) cmds <-> (MAX_DRIFT v <? drift)%float = true)
    /\ (forall t : float, In (seekTo t) cmds -> t = target)
    /\ ((drift <=? MAX_DRIFT v)%float = true -> filter isSeek cmds = [])
    /\ ((MAX_DRIFT v <? drift)%float = false -> filter isSeek cmds = [])
    /\ ((MAX_DRIFT v <? drift)%float = true ->
        filter isSeek cmds = [seekTo target]).
Proof.
  intros Hlive Hrs now localPosition target drift.
  exists (checkSync v rs (playerRef (hook c)) now).
  split; [now apply syncTick_runs_checkSync |].
  destruct (checkSync_halves v rs (playerRef (hook c)) now)
    as (seeks & pp & Hcmds & Hseeks & Hfs & Hfp & Hpp).
  fold localPosition target drift in Hseeks.
  assert (Hnoseek : forall t, ~ In (seekTo t) pp).
  { intros t. rewrite Hpp.
    destruct (isPlaying rs);
      destruct (bool_decide (getPlayerState (playerRef (hook c)) = Some 1%Z));
      destruct (bool_decide (getPlayerState (playerRef (hook c)) = Some 3%Z));
      cbn; intuition discriminate. }
  split; [unfold target, targetTime; now intros -> |].
  split; [unfold target, targetTime; now intros -> |].
  rewrite Hfs, Hcmds.
  pose proof (leb_not_ltb drift (MAX_DRIFT v)) as Hle.
  destruct (MAX_DRIFT v <? drift)%float; subst seeks.
  - split_and!; try done.
    + split; [done |]. intros _. apply in_or_app. left. now left.
    + intros t Hin. apply in_app_or in Hin as [[Heq | []] | Hin].
      * now injection Heq.
      * now apply Hnoseek in Hin.
    + intros H. now apply Hle in H.
  - split_and!; try done.
    + split; [| done]. intros Hin. apply in_app_or in Hin as [[] | Hin].
      now apply Hnoseek in Hin.
    + intros t Hin. apply in_app_or in Hin as [[] | Hin].
      now apply Hnoseek in Hin.
Qed.

(** The scenario of the design: the host is at 10.0 s at [T], playing; the
    listener ticks at [T + 3000 ms] with its player at 10.2 s; the target is
    13 s and a seek to it is sent. *)
Lemma listener_tick_seek_witness :
  exists cmds : list Command,
    step V1 SyncTick Demo.listenerComponent Demo.hostBrowser
    = Normal (Demo.listenerComponent, cmds, Demo.hostBrowser)
    /\ targetTime Demo.room (inject_Z 1700000003000) = 13%float
    /\ filter isSeek cmds = [seekTo 13%float].
Proof.
  destruct (listener_tick_seek V1 Demo.listenerComponent Demo.hostBrowser
                               Demo.room eq_refl eq_refl)
    as (cmds & Hstep & _ & _ & _ & _ & _ & _ & Hseek).
  exists cmds. split; [exact Hstep |].
  split; [vm_compute; reflexivity |].
  apply Hseek. vm_compute. reflexivity.
Defined.

(** The sums are those of doubles.  With the room playing from 3.25 s, a
    tick 4950 ms later and the player at 9 s, the target is the double
    written 8.2 and the distance the double written 0.8000000000000007,
    which exceeds the tolerance 0.8 of the second version: the tick seeks. *)
Example listener_tick_rounds :
  let rs := mkRoomState "k3x9q2a" "h7m1z0c" "abc123" true (13 # 4)%Q
                        (inject_Z 1700000000000) in
  let ref := Some (mkPlayer 9%Q 1 None) in
  let now := inject_Z 1700000004950 in
  targetTime rs now = toDouble (41 # 5)
  /\ (MAX_DRIFT V2 <? abs (toDouble 9%Q - targetTime rs now))%float = true
  /\ checkSync V2 rs ref now = [seekTo (toDouble (41 # 5))].
Proof. vm_compute. split_and!; reflexivity. Qed.

(** C2.  Among the commands of a tick, [play] is present exactly when the
    cached state is playing and the player reports neither playing (1) nor
    buffering (3); [pause] exactly when the cached state is paused and the
    player reports playing; a buffering player never gets a [play].  The
    play/pause commands do not depend on the drift correction: they are the
    same for every player position and every clock reading, and a tick of a
    tracking listener sends them whether or not it seeks. *)
Theorem listener_tick_play_pause
        (v : Version) (rs : RoomState) (ref : option YTPlayer) (now : number) :
  let cmds := checkSync v rs ref now in
  let playerState := getPlayerState ref in
  (In play cmds
   <-> isPlaying rs = true /\ playerState <> Some 1%Z /\ playerState <> Some 3%Z)
  /\ (In pause cmds <-> isPlaying rs = false /\ playerState = Some 1%Z)
  /\ (playerState = Some 3%Z -> ~ In play cmds)
  /\ (forall (ref' : option YTPlayer) (now' : number),
        getPlayerState ref' = playerState ->
        filter (fun cmd => negb (isSeek cmd)) (checkSync v rs ref' now')
        = filter (fun cmd => negb (isSeek cmd)) cmds)
  /\ (forall (c : Component) (w : Browser),
        syncLive c = true -> roomState c = Some rs ->
        playerRef (hook c) = ref -> fst (Date_now w) = now ->
        step v SyncTick c w = Normal (c, cmds, w)).
Proof.
  intros cmds playerState.
  destruct (checkSync_halves v rs ref now)
    as (seeks & pp & Hcmds & Hseeks & Hfs & Hfp & Hpp).
  fold cmds in Hcmds, Hfs, Hfp. fold playerState in Hpp.
  assert (Hplay : In play cmds <-> In play pp).
  { rewrite Hcmds, in_app_iff, Hseeks.
    destruct (MAX_DRIFT v <? _)%float; cbn; intuition discriminate. }
  assert (Hpause : In pause cmds <-> In pause pp).
  { rewrite Hcmds, in_app_iff, Hseeks.
    destruct (MAX_DRIFT v <? _)%float; cbn; intuition discriminate. }
  assert (Hpp_play :
            In play pp
            <-> isPlaying rs = true /\ playerState <> Some 1%Z
                /\ playerState <> Some 3%Z).
  { rewrite Hpp. destruct (isPlaying rs); repeat case_bool_decide; cbn;
      intuition (try discriminate; try congruence). }
  assert (Hpp_pause :
            In pause pp <-> isPlaying rs = false /\ playerState = Some 1%Z).
  { rewrite Hpp. destruct (isPlaying rs); repeat case_bool_decide; cbn;
      intuition (try discriminate; try congruence). }
  split; [now rewrite Hplay |].
  split; [now rewrite Hpause |].
  split.
  { intros Hbuf Hin. apply Hplay, Hpp_play in Hin. tauto. }
  split.
  { intros ref' now' Hsame.
    destruct (checkSync_halves v rs ref' now')
      as (seeks' & pp' & _ & _ & _ & Hfp' & Hpp').
    rewrite Hfp', Hfp, Hpp', Hpp, Hsame. reflexivity. }
  intros c w Hlive Hrs <- <-. now apply syncTick_runs_checkSync.
Qed.

(** The scenario of the design: the host paused at 55.4 s; the listener's
    player is at 55.4 s and still playing; the tick sends no seek and one
    [pause]. *)
Lemma listener_tick_play_pause_witness :
  checkSync V2 Demo.pausedRoom (Some (mkPlayer (277 # 5)%Q 1 None))
            (inject_Z 1700000005000)
  = [pause]
  /\ In pause (checkSync V2 Demo.pausedRoom (Some (mkPlayer (277 # 5)%Q 1 None))
                         (inject_Z 1700000005000)).
Proof.
  split.
  - reflexivity.
  - apply (listener_tick_play_pause V2 Demo.pausedRoom
             (Some (mkPlayer (277 # 5)%Q 1 None)) (inject_Z 1700000005000)).
    split; reflexivity.
Defined.

(* ===================================================================== *)
(** ** Properties of the session *)
(* ===================================================================== *)

Section Session.

(** The entry conditions of tracking: the player is ready, a room state
    is held, and the participant has clicked to join. *)
Definition Tracking (c : Component) : Prop :=
  isReady (hook c) = true
  /\ (exists rs : RoomState, roomState c = Some rs)
  /\ userInteracted c = true.

Definition isBroadcast (e : Event) : bool :=
  match e with
  | RemoteWrite _ _ => true
  | _ => false
  end.

Lemma syncLive_tracking (c : Component) :
  syncLive c = true -> isHost c = false /\ Tracking c.
Proof.
  unfold syncLive, Tracking. intros H.
  apply andb_true_iff in H as [H Hui].
  apply andb_true_iff in H as [H Hready].
  apply andb_true_iff in H as [Hhost Hrs].
  apply negb_true_iff in Hhost. apply bool_decide_eq_true in Hrs.
  destruct Hrs as [rs Hrs]. eauto.
Qed.

Lemma bind_run {A B} (m : Eff A) (k : A -> Eff B) (w : Browser) :
  bind m k w = k (fst (m w)) (snd (m w)).
Proof. unfold bind. now destruct (m w). Qed.

(** Case analysis on what a step ran: [H] is the equation of the step. *)
Ltac step_cases H :=
  unfold step, react, onStorage, withPlayer, cleanup, cleanup_v1, cleanup_v2,
    updateUIAndHostSync, handleSeekEnd, handleHostPlayPause, handleHostPlay,
    handleHostPause, andThen, try_catch, destroy, ret in H;
  rewrite ?bind_run in H; cbn in H;
  repeat case_match; rewrite ?bind_run in *; simplify_eq/=.

(** A step never changes the role, the route parameter, the error or the
    subscription. *)
Lemma step_frame (v : Version) (e : Event) (c c' : Component)
      (w w' : Browser) (cmds : list Command) :
  step v e c w = Normal (c', cmds, w') ->
  isHost c' = isHost c /\ roomId c' = roomId c
  /\ error c' = error c /\ subscribed c' = subscribed c.
Proof. intros H. destruct e, v; step_cases H; auto. Qed.



(** The session after a failed join: the error is shown, no room state
    is held, no storage handler is registered, the role is listener. *)
Definition Failed (v : Version) (c : Component) : Prop :=
  error c = Some (notFound v) /\ roomState c = None
  /\ subscribed c = false /\ isHost c = false.

(** Such a session is terminal: whatever happens, it stays as it is,
    sends nothing to the player, and leaves the browser to the
    environment. *)
Lemma step_failed (v : Version) (e : Event) (c c' : Component)
      (w w' : Browser) (cmds : list Command) :
  Failed v c ->
  step v e c w = Normal (c', cmds, w') ->
  Failed v c' /\ cmds = [] /\ w' = environment e w.
Proof.
  intros (Herr & Hrs & Hsub & Hhost) H. unfold Failed.
  destruct c as [rid rs host ui err lct drag sub h].
  cbn in Herr, Hrs, Hsub, Hhost. subst rs host sub err.
  destruct e, v; step_cases H; auto.
Qed.

Lemma joinRoom_absent (rid : string) (w : Browser) :
  localStorage w !! (STORAGE_PREFIX +:+ rid) = None ->
  joinRoom rid w = (mkJoinResult false None false, w).
Proof.
  intros H. unfold joinRoom. rewrite bind_run, getRoomState_pure. cbn.
  rewrite H. reflexivity.
Qed.

Lemma failed_forever (v : Version) (events : list Event) (c : Component)
      (w : Browser) :
  Failed v c ->
  Forall (fun '(ci, cmds) => Failed v ci /\ cmds = []) (trace v events c w)
  /\ forall (c' : Component) (w' : Browser),
      exec v events c w = Normal (c', w') ->
      Failed v c'
      /\ w' = fold_left (fun w e => environment e w) events w.
Proof.
  revert c w. induction events as [| e events IH]; intros c w Hfailed.
  { split; [constructor |]. now intros c' w' [= <- <-]. }
  cbn [trace exec fold_left].
  destruct (step v e c w) as [[[c1 cmds] w1] | msg] eqn:Hstep; cbn [andThen].
  - destruct (step_failed _ _ _ _ _ _ _ Hfailed Hstep) as (Hf1 & -> & ->).
    destruct (IH c1 (environment e w) Hf1) as [IHa IHb].
    split; [constructor; [now split | exact IHa] | exact IHb].
  - split; [constructor; [now split | constructor] | discriminate].
Qed.

End Session.



(** C7.  Where no state is stored for [roomId], [joinRoom] answers
    [{success: false, isHost: false}] with no state and touches nothing.
    The page opened on that room shows the "not found" message, holds no
    room state, registers no storage handler, and leaves the browser as it
    was.  From then on, whatever happens (a later write of that very room by
    another tab included), the session stays in that state, sends no
    command to the player, and changes nothing in the browser itself: it
    does not join again and creates no room state. *)
Theorem join_missing_room
        (v : Version) (rid : string) (w : Browser) :
  rid <> "" ->
  fst (getRoomState rid w) = None ->
  joinRoom rid w = (mkJoinResult false None false, w)
  /\ exists c : Component,
      mount v (Some rid) w = (c, w)
      /\ error c = Some (notFound v)
      /\ roomState c = None
      /\ subscribed c = false
      /\ isHost c = false
      /\ forall events : list Event,
          Forall (fun '(ci, cmds) =>
                    error ci = Some (notFound v) /\ roomState ci = None
                    /\ subscribed ci = false /\ cmds = [])
                 (trace v events c w)
          /\ forall (c' : Component) (w' : Browser),
              exec v events c w = Normal (c', w') ->
              error c' = Some (notFound v) /\ roomState c' = None
              /\ subscribed c' = false
              /\ w' = fold_left (fun w e => environment e w) events w.
Proof.
  intros Hrid. rewrite getRoomState_pure. cbn [fst]. intros Habsent.
  split; [now apply joinRoom_absent |].
  exists (set_error (Some (notFound v)) (initial (Some rid))).
  split.
  { unfold mount, initEffect. cbn [initial roomId truthy].
    rewrite bool_decide_eq_false_2 by exact Hrid.
    rewrite bind_run, (joinRoom_absent rid w Habsent). reflexivity. }
  repeat (split; [reflexivity |]).
  assert (Hfailed : Failed v (set_error (Some (notFound v)) (initial (Some rid))))
    by (repeat split).
  intros events.
  destruct (failed_forever v events _ w Hfailed) as [Htrace Hexec].
  split.
  - eapply Forall_impl; [exact Htrace |].
    intros [ci cmds] [(? & ? & ? & ?) ?]. auto.
  - intros c' w' Hrun.
    destruct (Hexec c' w' Hrun) as [(? & ? & ? & ?) ?]. auto.
Qed.

(** A listener opens [/room/zzzzzzz], which nobody created; the host of
    another room then happens to write that key; the page still shows the
    error and the browser holds exactly what the other tab wrote. *)
Lemma join_missing_room_witness :
  joinRoom "zzzzzzz" Demo.hostBrowser
  = (mkJoinResult false None false, Demo.hostBrowser)
  /\ exists c : Component,
      mount V2 (Some "zzzzzzz") Demo.hostBrowser = (c, Demo.hostBrowser)
      /\ error c = Some "Room not found or expired."
      /\ Forall (fun '(ci, cmds) =>
                   error ci = Some (notFound V2) /\ roomState ci = None
                   /\ subscribed ci = false /\ cmds = [])
                (trace V2 [RemoteWrite (STORAGE_PREFIX +:+ "zzzzzzz")
                                       (Some Demo.room);
                           ClickJoin; SyncTick]
                       c Demo.hostBrowser).
Proof.
  destruct (join_missing_room V2 "zzzzzzz" Demo.hostBrowser)
    as (Hjoin & c & Hmount & Herr & _ & _ & _ & Hlater).
  - discriminate.
  - reflexivity.
  - split; [exact Hjoin |].
    exists c. split; [exact Hmount |]. split; [exact Herr |].
    exact (proj1 (Hlater _)).
Defined.

(* ===================================================================== *)
(** ** The host heartbeat *)
(* ===================================================================== *)

Section Heartbeat.

(** V1: with the interval set and the player playing, a heartbeat merges
    [{timestamp: currentTime}] into the stored state, so [isPlaying] and
    the identity fields stay and [lastUpdated] is the clock; with the
    player not playing it writes nothing. *)
Lemma heartbeat_v1_writes (c : Component) (w : Browser) (rid : string)
      (cur : RoomState) :
  heartbeatLive V1 c = true ->
  truthy (roomId c) = Some rid ->
  localStorage w !! (STORAGE_PREFIX +:+ rid) = Some cur ->
  heartbeatInterval V1 = 2000%Z
  /\ (getPlayerState (playerRef (hook c)) = Some 1%Z ->
      step V1 HeartbeatTick c w
      = Normal (c, [],
                mkBrowser
                  (<[STORAGE_PREFIX +:+ rid :=
                       mkRoomState (Types.roomId cur) (hostId cur) (videoId cur)
                                   (isPlaying cur)
                                   (getCurrentTime (playerRef (hook c)))
                                   (inject_Z (clock w))]> (localStorage w))
                  (sessionStorage w) (clock w) (entropy w) (drawn w)))
  /\ (getPlayerState (playerRef (hook c)) <> Some 1%Z ->
      step V1 HeartbeatTick c w = Normal (c, [], w)).
Proof.
  intros Hlive Hrid Hcur. split; [reflexivity |].
  unfold step, react, environment. rewrite Hlive, Hrid.
  rewrite bind_run. unfold heartbeat.
  split; intros Hps.
  - rewrite bool_decide_eq_true_2 by exact Hps.
    rewrite (updateRoomState_present _ _ _ _ Hcur). reflexivity.
  - rewrite bool_decide_eq_false_2 by exact Hps. reflexivity.
Qed.

(** V2: the interval callback never touches the browser and sends
    nothing; it only refreshes the time shown by the scrubber. *)
Lemma heartbeat_v2_never_writes (c : Component) (w : Browser) :
  exists c' : Component,
    step V2 HeartbeatTick c w = Normal (c', [], w)
    /\ roomState c' = roomState c.
Proof.
  unfold step, react, environment.
  destruct (heartbeatLive V2 c).
  - rewrite bind_run. unfold updateUIAndHostSync, ret.
    repeat case_match; eexists; split; reflexivity.
  - eexists; split; reflexivity.
Qed.

End Heartbeat.

(** C3, on the second version of the page.  The host's player is playing at
    12.5 s, the stored state says 10 s, and the host's interval fires.  The
    first version merges [{timestamp: 12.5}] into the stored state and
    leaves [isPlaying] as it was; the second version, whose interval runs
    every 500 ms, leaves the browser exactly as it was: the stored
    timestamp is still 10 s. *)
Theorem host_heartbeat_v2_writes_nothing :
  isHost Demo.hostComponent = true
  /\ heartbeatLive V1 Demo.hostComponent = true
  /\ heartbeatLive V2 Demo.hostComponent = true
  /\ getPlayerState (playerRef (hook Demo.hostComponent)) = Some 1%Z
  /\ (exists w1 : Browser,
        step V1 HeartbeatTick Demo.hostComponent Demo.hostBrowser
        = Normal (Demo.hostComponent, [], w1)
        /\ fst (getRoomState "k3x9q2a" w1)
           = Some (mkRoomState "k3x9q2a" "h7m1z0c" "abc123" true (25 # 2)%Q
                               (inject_Z 1700000003000)))
  /\ heartbeatInterval V2 = 500%Z
  /\ (exists c' : Component,
        step V2 HeartbeatTick Demo.hostComponent Demo.hostBrowser
        = Normal (c', [], Demo.hostBrowser))
  /\ fst (getRoomState "k3x9q2a" Demo.hostBrowser) = Some Demo.room
  /\ timestamp Demo.room = 10%Q.
Proof.
  repeat match goal with |- _ /\ _ => split end; try reflexivity.
  - destruct (heartbeat_v1_writes Demo.hostComponent Demo.hostBrowser
                                  "k3x9q2a" Demo.room eq_refl eq_refl eq_refl)
      as (_ & Hwrite & _).
    eexists. split; [apply Hwrite; reflexivity |].
    rewrite getRoomState_pure. cbn [fst localStorage].
    apply lookup_insert_eq.
  - destruct (heartbeat_v2_never_writes Demo.hostComponent Demo.hostBrowser)
      as (c' & Hstep & _).
    now exists c'.
Qed.

(* ===================================================================== *)
(** ** The teardown of the player *)
(* ===================================================================== *)

Section Teardown.

(** The second version of the hook: the cleanup completes normally
    whatever [destroy] does, drops the player and resets [isReady]. *)
Lemma cleanup_v2_never_throws (h : Hook) :
  cleanup_v2 h = Normal (mkHook None false).
Proof.
  unfold cleanup_v2, destroy, try_catch, andThen.
  destruct h as [[p |] ready]; cbn; [destruct (yt_destroy p) |]; reflexivity.
Qed.

(** The first version: the cleanup throws exactly what [destroy] throws. *)
Lemma cleanup_v1_throws (h : Hook) (p : YTPlayer) (msg : string) :
  playerRef h = Some p ->
  yt_destroy p = Some msg ->
  cleanup_v1 h = Throw msg.
Proof.
  intros Hp Hd. unfold cleanup_v1, destroy, andThen. now rewrite Hp, Hd.
Qed.

Lemma session_cleanup_v2 (c : Component) (w : Browser) :
  step V2 HookCleanup c w = Normal (set_hook (mkHook None false) c, [], w).
Proof. unfold step, cleanup. now rewrite cleanup_v2_never_throws. Qed.

End Teardown.

(** C8, on the first version of the hook.  The page holds a player whose
    [destroy] throws.  The cleanup of the first version lets the error
    escape, and with it the session's step; the cleanup of the second
    version completes normally on the same player. *)
Theorem cleanup_v1_propagates_destroy_failure :
  yt_destroy Demo.brokenPlayer
  = Some "The YouTube player is not attached to the DOM."
  /\ cleanup_v1 (mkHook (Some Demo.brokenPlayer) true)
     = Throw "The YouTube player is not attached to the DOM."
  /\ (forall (c : Component) (w : Browser),
        hook c = mkHook (Some Demo.brokenPlayer) true ->
        step V1 HookCleanup c w
        = Throw "The YouTube player is not attached to the DOM.")
  /\ cleanup_v2 (mkHook (Some Demo.brokenPlayer) true)
     = Normal (mkHook None false).
Proof.
  split; [reflexivity |]. split; [reflexivity |]. split.
  - intros c w Hhook. unfold step, cleanup. rewrite Hhook. reflexivity.
  - apply cleanup_v2_never_throws.
Qed.

(* ===================================================================== *)
(** ** More on the service *)
(* ===================================================================== *)

Section Joining.

Lemma joinRoom_present (rid : string) (w : Browser) (st : RoomState) :
  localStorage w !! (STORAGE_PREFIX +:+ rid) = Some st ->
  joinRoom rid w
  = (mkJoinResult true (Some st)
                  (bool_decide (sessionStorage w !! ("role_" +:+ rid) = Some "host")),
     if falsy (sessionStorage w !! "userId")
     then mkBrowser (localStorage w)
                    (<["userId" := entropy w (drawn w)]> (sessionStorage w))
                    (clock w) (entropy w) (S (drawn w))
     else w).
Proof.
  intros H. unfold joinRoom. rewrite bind_run, getRoomState_pure. cbn [fst snd].
  rewrite H. unfold sessionStorage_getItem. rewrite !bind_run. cbn [fst snd].
  destruct (falsy (sessionStorage w !! "userId")); reflexivity.
Qed.

End Joining.

(** X1.  On a stored room, [joinRoom] succeeds with the stored state; the
    caller is host exactly when this session's [role_<roomId>] entry is
    ["host"] (the room's [hostId] is not consulted); localStorage, the clock
    and every sessionStorage entry but [userId] are left as they were. *)
Theorem joinRoom_stored_room (rid : string) (w : Browser) (st : RoomState) :
  fst (getRoomState rid w) = Some st ->
  success (fst (joinRoom rid w)) = true
  /\ state (fst (joinRoom rid w)) = Some st
  /\ (roomService.isHost (fst (joinRoom rid w)) = true
      <-> sessionStorage w !! ("role_" +:+ rid) = Some "host")
  /\ localStorage (snd (joinRoom rid w)) = localStorage w
  /\ clock (snd (joinRoom rid w)) = clock w
  /\ (forall k : string, k <> "userId" ->
        sessionStorage (snd (joinRoom rid w)) !! k = sessionStorage w !! k).
Proof.
  rewrite getRoomState_pure. cbn [fst]. intros Hst.
  rewrite (joinRoom_present rid w st Hst). cbn [fst snd success state roomService.isHost].
  split; [reflexivity |]. split; [reflexivity |].
  split; [apply bool_decide_eq_true |].
  destruct (falsy (sessionStorage w !! "userId")); cbn;
    repeat split; try reflexivity.
  intros k Hk. now apply lookup_insert_ne.
Qed.

Lemma joinRoom_stored_room_witness :
  fst (joinRoom "k3x9q2a" Demo.hostBrowser)
  = mkJoinResult true (Some Demo.room) true.
Proof.
  destruct (joinRoom_stored_room "k3x9q2a" Demo.hostBrowser Demo.room eq_refl)
    as (Hs & Hst & Hhost & _).
  destruct (fst (joinRoom "k3x9q2a" Demo.hostBrowser)) as [s st h].
  cbn in Hs, Hst, Hhost. subst s st.
  now rewrite (proj2 Hhost eq_refl).
Defined.

(** X2.  [joinRoom] on a stored room leaves the session with a [userId]:
    a non-empty one is kept and the browser is not touched at all; a missing
    or empty one is replaced by the next [generateId()].  Joining again gives
    the same answer. *)
Theorem joinRoom_assigns_userId (rid : string) (w : Browser) (st : RoomState) :
  fst (getRoomState rid w) = Some st ->
  is_Some (sessionStorage (snd (joinRoom rid w)) !! "userId")
  /\ (forall uid : string,
        sessionStorage w !! "userId" = Some uid -> uid <> "" ->
        snd (joinRoom rid w) = w)
  /\ (falsy (sessionStorage w !! "userId") = true ->
      sessionStorage (snd (joinRoom rid w)) !! "userId" = Some (fst (generateId w))
      /\ drawn (snd (joinRoom rid w)) = S (drawn w))
  /\ fst (joinRoom rid (snd (joinRoom rid w))) = fst (joinRoom rid w).
Proof.
  rewrite getRoomState_pure. cbn [fst]. intros Hst.
  rewrite (joinRoom_present rid w st Hst). cbn [fst snd].
  assert (Hst' :
            localStorage
              (if falsy (sessionStorage w !! "userId")
               then mkBrowser (localStorage w)
                              (<["userId" := entropy w (drawn w)]> (sessionStorage w))
                              (clock w) (entropy w) (S (drawn w))
               else w) !! (STORAGE_PREFIX +:+ rid) = Some st)
    by (destruct (falsy _); exact Hst).
  rewrite (joinRoom_present rid _ st Hst'). cbn [fst].
  destruct (sessionStorage w !! "userId") as [uid |] eqn:Huid; cbn [falsy].
  - case_bool_decide as Hempty; cbn; split_and!.
    + rewrite lookup_insert_eq. eauto.
    + intros uid' [= <-] Hne. contradiction.
    + intros _. split; [apply lookup_insert_eq | reflexivity].
    + rewrite lookup_insert_ne by apply role_key_not_userId. reflexivity.
    + rewrite Huid. eauto.
    + reflexivity.
    + discriminate.
    + reflexivity.
  - cbn; split_and!.
    + rewrite lookup_insert_eq. eauto.
    + discriminate.
    + intros _. split; [apply lookup_insert_eq | reflexivity].
    + rewrite lookup_insert_ne by apply role_key_not_userId. reflexivity.
Qed.

Lemma joinRoom_assigns_userId_witness :
  snd (joinRoom "k3x9q2a" Demo.hostBrowser) = Demo.hostBrowser
  /\ sessionStorage
       (snd (joinRoom "k3x9q2a"
               (mkBrowser (localStorage Demo.hostBrowser) ∅ 1700000004000
                          Demo.fixedEntropy 2))) !! "userId"
     = Some "u5t8w4e".
Proof.
  split.
  - destruct (joinRoom_assigns_userId "k3x9q2a" Demo.hostBrowser Demo.room eq_refl)
      as (_ & Hkeep & _).
    apply (Hkeep "h7m1z0c"); [reflexivity | discriminate].
  - destruct (joinRoom_assigns_userId
                "k3x9q2a"
                (mkBrowser (localStorage Demo.hostBrowser) ∅ 1700000004000
                           Demo.fixedEntropy 2)
                Demo.room eq_refl)
      as (_ & _ & Hnew & _).
    exact (proj1 (Hnew eq_refl)).
Defined.

Section Tabs.

(** The same browser seen from a tab whose sessionStorage is [ss]:
    localStorage is shared by the tabs of an origin, sessionStorage is
    not. *)
Definition inTab (ss : gmap string string) (w : Browser) : Browser :=
  mkBrowser (localStorage w) ss (clock w) (entropy w) (drawn w).

(** [{...p, ...q}] *)
Definition overlay (p q : PartialRoomState) : PartialRoomState :=
  mkPartial
    (from_option Some (roomId_opt p) (roomId_opt q))
    (from_option Some (hostId_opt p) (hostId_opt q))
    (from_option Some (videoId_opt p) (videoId_opt q))
    (from_option Some (isPlaying_opt p) (isPlaying_opt q))
    (from_option Some (timestamp_opt p) (timestamp_opt q))
    (from_option Some (lastUpdated_opt p) (lastUpdated_opt q)).

Lemma spread_overlay (s : RoomState) (p q : PartialRoomState) (t1 t2 : number) :
  spread (spread s p t1) q t2 = spread s (overlay p q) t2.
Proof.
  destruct p as [pr ph pv pi pt pl], q as [qr qh qv qi qt ql].
  unfold spread, overlay; cbn.
  destruct qr, qh, qv, qi, qt; reflexivity.
Qed.

Lemma createRoom_run (vid : string) (w : Browser) :
  createRoom vid w
  = (mkRoomState (entropy w (drawn w)) (entropy w (S (drawn w))) vid false 0%Q
                 (inject_Z (clock w)),
     mkBrowser
       (<[STORAGE_PREFIX +:+ entropy w (drawn w) :=
            mkRoomState (entropy w (drawn w)) (entropy w (S (drawn w))) vid
                        false 0%Q (inject_Z (clock w))]> (localStorage w))
       (<["userId" := entropy w (S (drawn w))]>
          (<["role_" +:+ entropy w (drawn w) := "host"]> (sessionStorage w)))
       (clock w) (entropy w) (S (S (drawn w)))).
Proof. reflexivity. Qed.

End Tabs.

(** X3.  A room created in one tab is joined from any other tab of the
    browser as a listener: [joinRoom] there succeeds with the state
    [createRoom] returned and [isHost = false], unless that tab's own
    sessionStorage already binds it as host of that room id. *)
Theorem created_room_joined_as_listener
        (vid : string) (w : Browser) (ss : gmap string string) :
  ss !! ("role_" +:+ Types.roomId (fst (createRoom vid w))) <> Some "host" ->
  fst (joinRoom (Types.roomId (fst (createRoom vid w)))
                (inTab ss (snd (createRoom vid w))))
  = mkJoinResult true (Some (fst (createRoom vid w))) false.
Proof.
  rewrite createRoom_run. cbn [fst snd Types.roomId]. intros Hrole.
  erewrite joinRoom_present
    by (unfold inTab; cbn [localStorage]; apply lookup_insert_eq).
  cbn [fst inTab sessionStorage].
  now rewrite bool_decide_eq_false_2.
Qed.

Lemma created_room_joined_as_listener_witness :
  fst (joinRoom "k3x9q2a" (inTab ∅ (snd (createRoom "abc123" Demo.emptyBrowser))))
  = mkJoinResult true
                 (Some (mkRoomState "k3x9q2a" "h7m1z0c" "abc123" false 0%Q
                                    (inject_Z 1700000000000)))
                 false.
Proof.
  apply (created_room_joined_as_listener "abc123" Demo.emptyBrowser ∅).
  discriminate.
Defined.

(** X4.  [updateRoomState] neither creates nor removes a localStorage
    entry, whatever the room id and the update: the set of stored keys is
    the same afterwards, and so are sessionStorage, the clock and the random
    source. *)
Theorem updateRoomState_keeps_keys
        (rid : string) (p : PartialRoomState) (w : Browser) :
  dom (localStorage (snd (updateRoomState rid p w))) = dom (localStorage w)
  /\ sessionStorage (snd (updateRoomState rid p w)) = sessionStorage w
  /\ clock (snd (updateRoomState rid p w)) = clock w
  /\ drawn (snd (updateRoomState rid p w)) = drawn w.
Proof.
  destruct (localStorage w !! (STORAGE_PREFIX +:+ rid)) as [cur |] eqn:Hcur.
  - rewrite (updateRoomState_present rid p w cur Hcur). cbn.
    split_and!; try reflexivity.
    rewrite dom_insert_L.
    assert (Hin : STORAGE_PREFIX +:+ rid ∈ dom (localStorage w))
      by (apply elem_of_dom; eauto).
    apply set_eq. intros k. rewrite elem_of_union, elem_of_singleton.
    split; [intros [-> | Hk]; assumption | now right].
  - rewrite (updateRoomState_absent rid p w Hcur). cbn. split_and!; reflexivity.
Qed.

(** X5.  Two updates of a room in a row, with any time passing between
    them, leave the browser as the single update [{...p, ...q}] made at the
    time of the second: later keys win, earlier keys the second update does
    not mention survive, and [lastUpdated] is that of the second write. *)
Theorem updateRoomState_twice
        (rid : string) (p q : PartialRoomState) (ms : Z) (w : Browser) :
  snd (updateRoomState rid q
         (environment (Elapse ms) (snd (updateRoomState rid p w))))
  = snd (updateRoomState rid (overlay p q) (environment (Elapse ms) w)).
Proof.
  destruct (localStorage w !! (STORAGE_PREFIX +:+ rid)) as [cur |] eqn:Hcur.
  - rewrite (updateRoomState_present rid p w cur Hcur). cbn [snd environment].
    erewrite updateRoomState_present
      by (cbn [localStorage]; apply lookup_insert_eq).
    erewrite (updateRoomState_present rid (overlay p q))
      by (cbn [localStorage]; exact Hcur).
    cbn. now rewrite spread_overlay, insert_insert_eq.
  - rewrite (updateRoomState_absent rid p w Hcur). cbn [snd environment].
    rewrite !updateRoomState_absent by (cbn [localStorage]; exact Hcur).
    reflexivity.
Qed.

(* ===================================================================== *)
(** ** More on the session *)
(* ===================================================================== *)

Ltac session_cases H :=
  unfold step, react, onStorage, withPlayer, cleanup, cleanup_v1, cleanup_v2,
    updateUIAndHostSync, handleSeekEnd, handleHostPlayPause, handleHostPlay,
    handleHostPause, andThen, try_catch, destroy, ret in H;
  rewrite ?bind_run in H; cbn in H;
  repeat case_match; rewrite ?bind_run in *; simplify_eq/=.

Section Writers.

(** The environment's part of a run of events. *)
Definition environments (events : list Event) (w : Browser) : Browser :=
  fold_left (fun w e => environment e w) events w.

Lemma listener_step_browser (v : Version) (e : Event) (c c' : Component)
      (w w' : Browser) (cmds : list Command) :
  isHost c = false ->
  step v e c w = Normal (c', cmds, w') ->
  w' = environment e w.
Proof.
  intros Hhost H.
  destruct e, v;
    unfold step, react, hostControlsShown, heartbeatLive, onStateChange in H;
    rewrite ?Hhost, ?andb_false_r in H; cbn [andb] in H;
    session_cases H; reflexivity.
Qed.

End Writers.

(** X6.  A listener's page never writes: over any run of events of a
    session whose role is listener, the role stays listener and the browser
    at the end is what the environment alone (other tabs' writes, the clock)
    made of it. *)
Theorem listener_never_writes
        (v : Version) (events : list Event) (c c' : Component) (w w' : Browser) :
  isHost c = false ->
  exec v events c w = Normal (c', w') ->
  isHost c' = false /\ w' = environments events w.
Proof.
  revert c w. induction events as [| e events IH]; intros c w Hhost.
  { intros [= <- <-]. now split. }
  cbn [exec]. unfold environments. cbn [fold_left].
  destruct (step v e c w) as [[[c1 cmds] w1] | msg] eqn:Hstep; cbn [andThen];
    [| discriminate].
  intros Hrun.
  destruct (step_frame _ _ _ _ _ _ _ Hstep) as (Hhost1 & _).
  rewrite Hhost in Hhost1.
  rewrite (listener_step_browser _ _ _ _ _ _ _ Hhost Hstep) in Hrun.
  exact (IH _ _ Hhost1 Hrun).
Qed.

Lemma listener_never_writes_witness :
  exists (c' : Component) (w' : Browser),
    exec V1 [PlayerStateChange Demo.playingPlayer; SyncTick; HeartbeatTick;
             ClickPlayPause; Elapse 1000; SyncTick]
         Demo.listenerComponent Demo.hostBrowser = Normal (c', w')
    /\ localStorage w' = localStorage Demo.hostBrowser.
Proof.
  destruct (exec V1 [PlayerStateChange Demo.playingPlayer; SyncTick;
                     HeartbeatTick; ClickPlayPause; Elapse 1000; SyncTick]
                 Demo.listenerComponent Demo.hostBrowser)
    as [[c' w'] | msg] eqn:Hrun.
  - exists c', w'. split; [reflexivity |].
    destruct (listener_never_writes V1 _ Demo.listenerComponent c'
                                    Demo.hostBrowser w' eq_refl Hrun) as [_ ->].
    reflexivity.
  - exfalso. vm_compute in Hrun. discriminate Hrun.
Defined.

Section Identity.

(** The identity fields of a room state. *)
Definition sameIdentity (s s' : RoomState) : Prop :=
  Types.roomId s' = Types.roomId s /\ hostId s' = hostId s
  /\ videoId s' = videoId s.

(** The same keys hold a room state, with the identity it had. *)
Definition roomsKept (m m' : gmap string RoomState) : Prop :=
  forall k : string,
    match m !! k, m' !! k with
    | None, None => True
    | Some s, Some s' => sameIdentity s s'
    | _, _ => False
    end.

Lemma roomsKept_refl (m : gmap string RoomState) : roomsKept m m.
Proof. intros k. destruct (m !! k); [repeat split | exact I]. Qed.

Lemma roomsKept_trans (m1 m2 m3 : gmap string RoomState) :
  roomsKept m1 m2 -> roomsKept m2 m3 -> roomsKept m1 m3.
Proof.
  intros H12 H23 k. specialize (H12 k). specialize (H23 k).
  destruct (m1 !! k), (m2 !! k), (m3 !! k); try tauto.
  destruct H12 as (? & ? & ?), H23 as (? & ? & ?).
  repeat split; congruence.
Qed.

Lemma updateRoomState_rooms (rid : string) (p : PartialRoomState) (w : Browser) :
  roomId_opt p = None -> hostId_opt p = None -> videoId_opt p = None ->
  roomsKept (localStorage w) (localStorage (snd (updateRoomState rid p w))).
Proof.
  intros Hr Hh Hv.
  destruct (localStorage w !! (STORAGE_PREFIX +:+ rid)) as [cur |] eqn:Hcur.
  - rewrite (updateRoomState_present rid p w cur Hcur). cbn [snd localStorage].
    intros k. destruct (decide (k = STORAGE_PREFIX +:+ rid)) as [-> | Hne].
    + rewrite lookup_insert_eq, Hcur. unfold spread. rewrite Hr, Hh, Hv.
      repeat split.
    + rewrite lookup_insert_ne by congruence.
      destruct (localStorage w !! k); [repeat split | exact I].
  - rewrite (updateRoomState_absent rid p w Hcur). apply roomsKept_refl.
Qed.

Lemma onStateChange_rooms (c : Component) (data : Z) (t : number) (w : Browser) :
  roomsKept (localStorage w) (localStorage (snd (onStateChange c data t w))).
Proof.
  unfold onStateChange.
  repeat case_match;
    first [ now apply updateRoomState_rooms | apply roomsKept_refl ].
Qed.

Lemma heartbeat_rooms (rid : string) (c : Component) (w : Browser) :
  roomsKept (localStorage w) (localStorage (snd (heartbeat rid c w))).
Proof.
  unfold heartbeat.
  case_match; first [ now apply updateRoomState_rooms | apply roomsKept_refl ].
Qed.

Lemma step_rooms (v : Version) (e : Event) (c c' : Component)
      (w w' : Browser) (cmds : list Command) :
  isBroadcast e = false ->
  step v e c w = Normal (c', cmds, w') ->
  roomsKept (localStorage w) (localStorage w').
Proof.
  intros Hnb H.
  destruct e, v; try discriminate Hnb; session_cases H;
    first [ apply roomsKept_refl
          | apply onStateChange_rooms
          | apply heartbeat_rooms
          | now apply updateRoomState_rooms ].
Qed.

End Identity.

(** X7.  The page never creates a room, never removes one and never
    changes the [roomId], [hostId] or [videoId] of a stored state: over any
    run of events without a write by another tab, host or listener, every
    localStorage key that held a state still holds one with the same
    identity, and no other key holds one. *)
Theorem page_keeps_rooms
        (v : Version) (events : list Event) (c c' : Component) (w w' : Browser) :
  forallb (fun e => negb (isBroadcast e)) events = true ->
  exec v events c w = Normal (c', w') ->
  roomsKept (localStorage w) (localStorage w')
  /\ dom (localStorage w') = dom (localStorage w).
Proof.
  intros Hev Hrun.
  assert (Hkept : roomsKept (localStorage w) (localStorage w')).
  { revert c w Hev Hrun. induction events as [| e events IH]; intros c w Hev.
    - intros [= <- <-]. apply roomsKept_refl.
    - cbn [exec forallb] in *. apply andb_true_iff in Hev as [He Hev].
      apply negb_true_iff in He.
      destruct (step v e c w) as [[[c1 cmds] w1] | msg] eqn:Hstep;
        cbn [andThen]; [| discriminate].
      intros Hrun. eapply roomsKept_trans.
      + exact (step_rooms _ _ _ _ _ _ _ He Hstep).
      + exact (IH _ _ Hev Hrun). }
  split; [exact Hkept |].
  apply set_eq. intros k. rewrite !elem_of_dom. specialize (Hkept k).
  destruct (localStorage w !! k), (localStorage w' !! k);
    try contradiction; split; intros [? ?]; try discriminate; eauto.
Qed.

Lemma page_keeps_rooms_witness :
  exists (c' : Component) (w' : Browser),
    exec V1 [HeartbeatTick; Elapse 500; ClickPlayPause;
             PlayerStateChange (mkPlayer 30%Q 2 None)]
         Demo.hostComponent Demo.hostBrowser = Normal (c', w')
    /\ roomsKept (localStorage Demo.hostBrowser) (localStorage w').
Proof.
  destruct (exec V1 [HeartbeatTick; Elapse 500; ClickPlayPause;
                     PlayerStateChange (mkPlayer 30%Q 2 None)]
                 Demo.hostComponent Demo.hostBrowser)
    as [[c' w'] | msg] eqn:Hrun.
  - exists c', w'. split; [reflexivity |].
    exact (proj1 (page_keeps_rooms
                    V1 [HeartbeatTick; Elapse 500; ClickPlayPause;
                        PlayerStateChange (mkPlayer 30%Q 2 None)]
                    Demo.hostComponent c' Demo.hostBrowser w' eq_refl Hrun)).
  - exfalso. vm_compute in Hrun. discriminate Hrun.
Defined.

Section PlayerHeld.

(** Whenever the hook reports ready, it holds a player. *)
Definition readyHasPlayer (c : Component) : Prop :=
  isReady (hook c) = true -> is_Some (playerRef (hook c)).

Lemma step_readyHasPlayer (v : Version) (e : Event) (c c' : Component)
      (w w' : Browser) (cmds : list Command) :
  readyHasPlayer c ->
  step v e c w = Normal (c', cmds, w') ->
  readyHasPlayer c'.
Proof.
  unfold readyHasPlayer. intros Hinv H.
  destruct e, v;
    unfold step, react, initPlayer, initPlayer_v1, initPlayer_v2, onReady in H;
    session_cases H; cbn in *; eauto; try discriminate;
    intros Hr; specialize (Hinv Hr);
    repeat match goal with
           | Hp : playerRef _ = _ |- _ => rewrite Hp in *
           end;
    first [ assumption | eauto | destruct Hinv; discriminate ].
Qed.

Lemma step_roomState (v : Version) (e : Event) (c c' : Component)
      (w w' : Browser) (cmds : list Command) :
  isBroadcast e = false ->
  step v e c w = Normal (c', cmds, w') ->
  roomState c' = roomState c.
Proof.
  intros Hnb H. destruct e, v; try discriminate Hnb; session_cases H; auto.
Qed.

End PlayerHeld.

(** X8.  In both versions, a hook that reports ready holds a player, and
    every event keeps it so ([onReady] being an event of the player held);
    hence a listener whose sync interval is set always has a player for its
    commands, from a freshly opened page on. *)
Theorem ready_session_holds_player
        (v : Version) (events : list Event) (c c' : Component) (w w' : Browser) :
  readyHasPlayer c ->
  exec v events c w = Normal (c', w') ->
  readyHasPlayer c'
  /\ (syncLive c' = true -> is_Some (playerRef (hook c'))).
Proof.
  intros Hinv Hrun.
  assert (Hinv' : readyHasPlayer c').
  { revert c w Hinv Hrun. induction events as [| e events IH]; intros c w Hinv.
    - now intros [= <- <-].
    - cbn [exec].
      destruct (step v e c w) as [[[c1 cmds] w1] | msg] eqn:Hstep;
        cbn [andThen]; [| discriminate].
      apply IH. exact (step_readyHasPlayer _ _ _ _ _ _ _ Hinv Hstep). }
  split; [exact Hinv' |].
  intros Hlive. apply syncLive_tracking in Hlive as (_ & Hready & _).
  now apply Hinv'.
Qed.

Lemma ready_session_holds_player_witness :
  exists (c' : Component) (w' : Browser),
    exec V2 [RemoteWrite (STORAGE_PREFIX +:+ "k3x9q2a") (Some Demo.room);
             ApiLoaded Demo.laggingPlayer; PlayerReady; HookCleanup;
             PlayerReady; SyncTick]
         (initial (Some "k3x9q2a")) Demo.emptyBrowser = Normal (c', w')
    /\ readyHasPlayer c'.
Proof.
  destruct (exec V2 [RemoteWrite (STORAGE_PREFIX +:+ "k3x9q2a") (Some Demo.room);
                     ApiLoaded Demo.laggingPlayer; PlayerReady; HookCleanup;
                     PlayerReady; SyncTick]
                 (initial (Some "k3x9q2a")) Demo.emptyBrowser)
    as [[c' w'] | msg] eqn:Hrun.
  - exists c', w'. split; [reflexivity |].
    refine (proj1 (ready_session_holds_player
                     V2 _ (initial (Some "k3x9q2a")) c'
                     Demo.emptyBrowser w' _ Hrun)).
    intros Hready. discriminate Hready.
  - exfalso. vm_compute in Hrun. discriminate Hrun.
Defined.

(** X9.  A subscribed page follows its own room only.  A write by another
    tab under this room's key replaces the cached room state by the written
    one; a write under any other room's key, the removal of a key, and any
    write seen by a page that is not subscribed leave the cached state as
    it was.  None of them sends a command by itself. *)
Theorem broadcast_delivery
        (v : Version) (c : Component) (w : Browser) (rid : string) :
  truthy (roomId c) = Some rid ->
  (forall s : RoomState,
      subscribed c = true ->
      step v (RemoteWrite (STORAGE_PREFIX +:+ rid) (Some s)) c w
      = Normal (set_roomState (Some s) c, [],
                environment (RemoteWrite (STORAGE_PREFIX +:+ rid) (Some s)) w))
  /\ (forall (other : string) (nv : option RoomState),
        other <> rid ->
        step v (RemoteWrite (STORAGE_PREFIX +:+ other) nv) c w
        = Normal (c, [], environment (RemoteWrite (STORAGE_PREFIX +:+ other) nv) w))
  /\ (forall k : string,
        step v (RemoteWrite k None) c w
        = Normal (c, [], environment (RemoteWrite k None) w))
  /\ (forall (k : string) (nv : option RoomState),
        subscribed c = false ->
        step v (RemoteWrite k nv) c w
        = Normal (c, [], environment (RemoteWrite k nv) w)).
Proof.
  intros Hrid. unfold step, react, ret, onStorage, handler. rewrite Hrid.
  cbn [key newValue]. split_and!.
  - intros s ->. now rewrite bool_decide_eq_true_2.
  - intros other nv Hne. destruct (subscribed c); [| reflexivity].
    rewrite bool_decide_eq_false_2; [reflexivity |].
    intros [= Heq]. apply Hne. now apply room_key_inj.
  - intros k. destruct (subscribed c); [| reflexivity].
    now case_bool_decide.
  - intros k nv ->. reflexivity.
Qed.

Lemma broadcast_delivery_witness :
  roomState
    (set_roomState (Some Demo.pausedRoom) Demo.listenerComponent)
  = Some Demo.pausedRoom
  /\ step V1 (RemoteWrite (STORAGE_PREFIX +:+ "k3x9q2a") (Some Demo.pausedRoom))
          Demo.listenerComponent Demo.hostBrowser
     = Normal (set_roomState (Some Demo.pausedRoom) Demo.listenerComponent, [],
               environment (RemoteWrite (STORAGE_PREFIX +:+ "k3x9q2a")
                                        (Some Demo.pausedRoom))
                           Demo.hostBrowser).
Proof.
  split; [reflexivity |].
  apply (proj1 (broadcast_delivery V1 Demo.listenerComponent Demo.hostBrowser
                                   "k3x9q2a" eq_refl)).
  reflexivity.
Defined.

Section HostControls.

Lemma host_step_no_pause (v : Version) (e : Event) (c c' : Component)
      (w w' : Browser) (cmds : list Command) (rs : RoomState) :
  isHost c = true ->
  roomState c = Some rs ->
  isPlaying rs = false ->
  step v e c w = Normal (c', cmds, w') ->
  ~ In pause cmds.
Proof.
  intros Hhost Hrs Hpaused H.
  destruct c as [rid crs host ui err lct drag sub h].
  cbn in Hhost, Hrs. subst crs host.
  destruct e, v; unfold step, react, syncLive in H; cbn [isHost negb andb] in H;
    session_cases H; cbn; intuition (try discriminate; try congruence).
Qed.

End HostControls.

(** X10.  The host's page does not see its own writes: only a write by
    another tab changes the cached room state.  So a host whose cached state
    says paused (as it does after creating the room) never sends [pause] to
    its player, however often the play/pause button is clicked, until
    another tab writes. *)
Theorem host_cache_is_stale
        (v : Version) (events : list Event) (c : Component) (w : Browser)
        (rs : RoomState) :
  isHost c = true ->
  roomState c = Some rs ->
  isPlaying rs = false ->
  forallb (fun e => negb (isBroadcast e)) events = true ->
  Forall (fun '(ci, cmds) => roomState ci = Some rs /\ ~ In pause cmds)
         (trace v events c w).
Proof.
  intros Hhost Hrs Hpaused. revert c w Hhost Hrs.
  induction events as [| e events IH]; intros c w Hhost Hrs Hev.
  { constructor. }
  cbn [trace forallb] in *. apply andb_true_iff in Hev as [He Hev].
  apply negb_true_iff in He.
  destruct (step v e c w) as [[[c1 cmds] w1] | msg] eqn:Hstep.
  - constructor.
    + split; [exact Hrs |].
      exact (host_step_no_pause _ _ _ _ _ _ _ _ Hhost Hrs Hpaused Hstep).
    + apply IH; [| | exact Hev].
      * destruct (step_frame _ _ _ _ _ _ _ Hstep) as (-> & _). exact Hhost.
      * rewrite (step_roomState _ _ _ _ _ _ _ He Hstep). exact Hrs.
  - constructor; [| constructor]. split; [exact Hrs |]. intros [].
Qed.

(** The host creates the room, plays, and clicks again to pause: the second
    click sends [play] again. *)
Lemma host_cache_is_stale_witness :
  trace V2 [ClickPlayPause; Elapse 4000; ClickPlayPause]
        (mkComponent (Some "k3x9q2a")
                     (Some (mkRoomState "k3x9q2a" "h7m1z0c" "abc123" false 0%Q
                                        (inject_Z 1700000000000)))
                     true true None 0%Q false true
                     (mkHook (Some Demo.playingPlayer) true))
        Demo.hostBrowser
  = [(mkComponent (Some "k3x9q2a")
                  (Some (mkRoomState "k3x9q2a" "h7m1z0c" "abc123" false 0%Q
                                     (inject_Z 1700000000000)))
                  true true None 0%Q false true
                  (mkHook (Some Demo.playingPlayer) true), [play]);
     (mkComponent (Some "k3x9q2a")
                  (Some (mkRoomState "k3x9q2a" "h7m1z0c" "abc123" false 0%Q
                                     (inject_Z 1700000000000)))
                  true true None 0%Q false true
                  (mkHook (Some Demo.playingPlayer) true), []);
     (mkComponent (Some "k3x9q2a")
                  (Some (mkRoomState "k3x9q2a" "h7m1z0c" "abc123" false 0%Q
                                     (inject_Z 1700000000000)))
                  true true None 0%Q false true
                  (mkHook (Some Demo.playingPlayer) true), [play])]
  /\ Forall (fun '(ci, cmds) =>
               roomState ci
               = Some (mkRoomState "k3x9q2a" "h7m1z0c" "abc123" false 0%Q
                                   (inject_Z 1700000000000))
               /\ ~ In pause cmds)
            (trace V2 [ClickPlayPause; Elapse 4000; ClickPlayPause]
                   (mkComponent (Some "k3x9q2a")
                                (Some (mkRoomState "k3x9q2a" "h7m1z0c" "abc123"
                                                   false 0%Q
                                                   (inject_Z 1700000000000)))
                                true true None 0%Q false true
                                (mkHook (Some Demo.playingPlayer) true))
                   Demo.hostBrowser).
Proof.
  split; [reflexivity |].
  apply host_cache_is_stale; reflexivity.
Defined.

(** X11.  The host's play/pause button, in both versions alike: the
    command sent and the [isPlaying] written always agree, both being the
    opposite of the cached [isPlaying]; the position written is the player's
    current time and the identity fields stay.  Before the player is ready
    the click does nothing. *)
Theorem host_click_play_pause
        (v : Version) (c : Component) (w : Browser) (rid : string)
        (rs cur : RoomState) :
  hostControlsShown c = true ->
  truthy (roomId c) = Some rid ->
  roomState c = Some rs ->
  fst (getRoomState rid w) = Some cur ->
  step V1 ClickPlayPause c w = step V2 ClickPlayPause c w
  /\ (isReady (hook c) = false -> step v ClickPlayPause c w = Normal (c, [], w))
  /\ (isReady (hook c) = true ->
      step v ClickPlayPause c w
      = Normal (c, [if isPlaying rs then pause else play],
                mkBrowser
                  (<[STORAGE_PREFIX +:+ rid :=
                       mkRoomState (Types.roomId cur) (hostId cur) (videoId cur)
                                   (negb (isPlaying rs))
                                   (getCurrentTime (playerRef (hook c)))
                                   (fst (Date_now w))]> (localStorage w))
                  (sessionStorage w) (clock w) (entropy w) (drawn w))).
Proof.
  rewrite getRoomState_pure. cbn [fst]. intros Hshown Hrid Hrs Hcur.
  unfold step, react, environment, handleHostPlayPause, handleHostPlay,
    handleHostPause.
  rewrite Hshown, Hrs, Hrid. rewrite !bind_run.
  split_and!.
  - destruct (isPlaying rs), (isReady (hook c)); cbn [negb];
      rewrite ?bind_run; reflexivity.
  - intros Hready. rewrite Hready.
    destruct v, (isPlaying rs); reflexivity.
  - intros Hready. rewrite Hready.
    destruct v, (isPlaying rs); cbn [negb]; rewrite ?bind_run;
      rewrite (updateRoomState_present _ _ _ _ Hcur); reflexivity.
Qed.

Lemma host_click_play_pause_witness :
  step V1 ClickPlayPause Demo.hostComponent Demo.hostBrowser
  = Normal (Demo.hostComponent, [pause],
            mkBrowser
              (<[STORAGE_PREFIX +:+ "k3x9q2a" :=
                   mkRoomState "k3x9q2a" "h7m1z0c" "abc123" false (25 # 2)%Q
                               (inject_Z 1700000003000)]>
                 (localStorage Demo.hostBrowser))
              (sessionStorage Demo.hostBrowser) 1700000003000
              Demo.fixedEntropy 2).
Proof.
  destruct (host_click_play_pause V1 Demo.hostComponent Demo.hostBrowser
                                  "k3x9q2a" Demo.room Demo.room
                                  eq_refl eq_refl eq_refl eq_refl)
    as (_ & _ & Hclick).
  exact (Hclick eq_refl).
Defined.

(** X12.  The host's scrubber (second version): releasing it at [time]
    sends one [seekTo time] and merges [{timestamp: time}] into the stored
    state, leaving [isPlaying] as stored, whether or not the player is ready
    and whatever the cached play state; the drag is over. *)
Theorem host_seek
        (c : Component) (w : Browser) (rid : string) (cur : RoomState)
        (time : number) :
  hostControlsShown c = true ->
  truthy (roomId c) = Some rid ->
  fst (getRoomState rid w) = Some cur ->
  step V2 (SeekEnd time) c w
  = Normal (set_isDragging false c, [seekTo (toDouble time)],
            mkBrowser
              (<[STORAGE_PREFIX +:+ rid :=
                   mkRoomState (Types.roomId cur) (hostId cur) (videoId cur)
                               (isPlaying cur) time (fst (Date_now w))]>
                 (localStorage w))
              (sessionStorage w) (clock w) (entropy w) (drawn w)).
Proof.
  rewrite getRoomState_pure. cbn [fst]. intros Hshown Hrid Hcur.
  unfold step, react, environment, handleSeekEnd.
  rewrite Hshown, Hrid, bind_run.
  rewrite (updateRoomState_present _ _ _ _ Hcur). reflexivity.
Qed.

Lemma host_seek_witness :
  exists w' : Browser,
    step V2 (SeekEnd 90%Q)
         (mkComponent (Some "k3x9q2a") (Some Demo.room) true true None 0%Q true
                      true (mkHook None false))
         Demo.hostBrowser
    = Normal (mkComponent (Some "k3x9q2a") (Some Demo.room) true true None 0%Q
                          false true (mkHook None false),
              [seekTo (toDouble 90%Q)], w')
    /\ fst (getRoomState "k3x9q2a" w')
       = Some (mkRoomState "k3x9q2a" "h7m1z0c" "abc123" true 90%Q
                           (inject_Z 1700000003000)).
Proof.
  eexists. split.
  - apply (host_seek
             (mkComponent (Some "k3x9q2a") (Some Demo.room) true true None 0%Q
                          true true (mkHook None false))
             Demo.hostBrowser "k3x9q2a" Demo.room 90%Q);
      reflexivity.
  - reflexivity.
Defined.

(** X13.  The host's player events: a change to playing (1) merges
    [{isPlaying: true, timestamp}] into the stored state and a change to
    paused (2) merges [{isPlaying: false, timestamp}], with the player's own
    time; any other player state (unstarted, ended, buffering, cued) writes
    nothing.  No command is sent back to the player. *)
Theorem host_player_events
        (v : Version) (c : Component) (w : Browser) (rid : string)
        (rs cur : RoomState) (held p : YTPlayer) :
  isHost c = true ->
  truthy (roomId c) = Some rid ->
  roomState c = Some rs ->
  playerRef (hook c) = Some held ->
  fst (getRoomState rid w) = Some cur ->
  let written (b : bool) :=
      mkBrowser
        (<[STORAGE_PREFIX +:+ rid :=
             mkRoomState (Types.roomId cur) (hostId cur) (videoId cur) b
                         (yt_getCurrentTime p) (fst (Date_now w))]>
           (localStorage w))
        (sessionStorage w) (clock w) (entropy w) (drawn w) in
  exists w' : Browser,
    step v (PlayerStateChange p) c w = Normal (withPlayer p c, [], w')
    /\ (yt_getPlayerState p = 1%Z -> w' = written true)
    /\ (yt_getPlayerState p = 2%Z -> w' = written false)
    /\ (yt_getPlayerState p <> 1%Z -> yt_getPlayerState p <> 2%Z -> w' = w).
Proof.
  rewrite getRoomState_pure. cbn [fst]. intros Hhost Hrid Hrs Hheld Hcur.
  unfold step, react, environment, onStateChange.
  rewrite Hheld, Hhost, Hrid, Hrs, bind_run.
  destruct (yt_getPlayerState p =? 1)%Z eqn:E1.
  - apply Z.eqb_eq in E1.
    rewrite (updateRoomState_present _ _ _ _ Hcur). cbn [fst snd].
    eexists. split; [reflexivity |]. split_and!.
    + reflexivity.
    + intros E2. rewrite E2 in E1. discriminate.
    + intros Hn. contradiction.
  - apply Z.eqb_neq in E1.
    destruct (yt_getPlayerState p =? 2)%Z eqn:E2.
    + apply Z.eqb_eq in E2.
      rewrite (updateRoomState_present _ _ _ _ Hcur). cbn [fst snd].
      eexists. split; [reflexivity |]. split_and!.
      * intros E. contradiction.
      * reflexivity.
      * intros _ Hn. contradiction.
    + apply Z.eqb_neq in E2. cbn [fst snd ret].
      eexists. split; [reflexivity |]. split_and!.
      * intros E. contradiction.
      * intros E. contradiction.
      * reflexivity.
Qed.

Lemma host_player_events_witness :
  exists w' : Browser,
    step V1 (PlayerStateChange (mkPlayer 30%Q 2 None)) Demo.hostComponent
         Demo.hostBrowser
    = Normal (withPlayer (mkPlayer 30%Q 2 None) Demo.hostComponent, [], w')
    /\ fst (getRoomState "k3x9q2a" w')
       = Some (mkRoomState "k3x9q2a" "h7m1z0c" "abc123" false 30%Q
                           (inject_Z 1700000003000)).
Proof.
  destruct (host_player_events V1 Demo.hostComponent Demo.hostBrowser "k3x9q2a"
                               Demo.room Demo.room Demo.playingPlayer
                               (mkPlayer 30%Q 2 None)
                               eq_refl eq_refl eq_refl eq_refl eq_refl)
    as (w' & Hstep & _ & Hpaused & _).
  exists w'. split; [exact Hstep |].
  rewrite (Hpaused eq_refl). reflexivity.
Defined.

(** X14.  The teardown of the second version stops every use of the
    player: after the hook's cleanup the page holds no player and is not
    ready, so the listener's tick, the periodic callback and the play/pause
    button send nothing and write nothing; the room state is kept, and the
    next [initPlayer] installs the new player (not yet ready). *)
Theorem teardown_v2_stops_player_use (c : Component) (w : Browser) :
  exists c' : Component,
    step V2 HookCleanup c w = Normal (c', [], w)
    /\ hook c' = mkHook None false
    /\ roomState c' = roomState c
    /\ syncLive c' = false
    /\ heartbeatLive V2 c' = false
    /\ step V2 SyncTick c' w = Normal (c', [], w)
    /\ step V2 HeartbeatTick c' w = Normal (c', [], w)
    /\ step V2 ClickPlayPause c' w = Normal (c', [], w)
    /\ (forall (p : YTPlayer) (rs : RoomState),
          roomState c = Some rs -> videoId rs <> "" ->
          step V2 (ApiLoaded p) c' w
          = Normal (set_hook (mkHook (Some p) false) c', [], w)).
Proof.
  exists (set_hook (mkHook None false) c).
  split; [apply session_cleanup_v2 |].
  assert (Hsync : syncLive (set_hook (mkHook None false) c) = false).
  { unfold syncLive. cbn. now rewrite andb_false_r. }
  split_and!; try reflexivity.
  - exact Hsync.
  - now apply syncTick_idle.
  - unfold step, react, environment, handleHostPlayPause. cbn.
    destruct (hostControlsShown _); [rewrite bind_run |]; reflexivity.
  - intros p rs Hrs Hvid. unfold step, react, environment, initPlayer,
      initPlayer_v2. cbn. rewrite Hrs. cbn.
    now rewrite bool_decide_eq_false_2.
Qed.

Section Opening.

Lemma mount_present (v : Version) (rid : string) (w : Browser) (st : RoomState) :
  rid <> "" ->
  localStorage w !! (STORAGE_PREFIX +:+ rid) = Some st ->
  fst (mount v (Some rid) w)
  = mkComponent (Some rid) (Some st)
                (bool_decide (sessionStorage w !! ("role_" +:+ rid) = Some "host"))
                (match v with
                 | V1 => false
                 | V2 => bool_decide (sessionStorage w !! ("role_" +:+ rid)
                                      = Some "host")
                 end)
                None 0%Q false true initialHook
  /\ localStorage (snd (mount v (Some rid) w)) = localStorage w
  /\ clock (snd (mount v (Some rid) w)) = clock w.
Proof.
  intros Hrid Hst. unfold mount, initEffect. cbn [initial roomId truthy].
  rewrite bool_decide_eq_false_2 by exact Hrid.
  rewrite bind_run, (joinRoom_present rid w st Hst).
  cbn [fst snd success state roomService.isHost].
  destruct v, (bool_decide (sessionStorage w !! ("role_" +:+ rid) = Some "host")),
    (falsy (sessionStorage w !! "userId")); split_and!; reflexivity.
Qed.

End Opening.

(** X15.  The creator opens the room page: after [createRoom], opening
    [/room/<roomId>] in the same tab gives a page that holds the created
    state, is host, shows no error, is subscribed, shows the host's controls
    and no join overlay; the second version also counts the host as having
    interacted.  The stored rooms are untouched by the opening. *)
Theorem creator_opens_page (v : Version) (vid : string) (w : Browser) :
  Types.roomId (fst (createRoom vid w)) <> "" ->
  let s := fst (createRoom vid w) in
  let w1 := snd (createRoom vid w) in
  let c := fst (mount v (Some (Types.roomId s)) w1) in
  roomState c = Some s
  /\ isHost c = true
  /\ error c = None
  /\ subscribed c = true
  /\ userInteracted c = match v with V1 => false | V2 => true end
  /\ hostControlsShown c = true
  /\ overlayShown c = false
  /\ syncLive c = false
  /\ localStorage (snd (mount v (Some (Types.roomId s)) w1)) = localStorage w1.
Proof.
  rewrite createRoom_run. cbn [fst snd Types.roomId]. intros Hrid.
  destruct (mount_present
              v (entropy w (drawn w))
              (mkBrowser
                 (<[STORAGE_PREFIX +:+ entropy w (drawn w) :=
                      mkRoomState (entropy w (drawn w)) (entropy w (S (drawn w)))
                                  vid false 0%Q (inject_Z (clock w))]>
                    (localStorage w))
                 (<["userId" := entropy w (S (drawn w))]>
                    (<["role_" +:+ entropy w (drawn w) := "host"]>
                       (sessionStorage w)))
                 (clock w) (entropy w) (S (S (drawn w))))
              (mkRoomState (entropy w (drawn w)) (entropy w (S (drawn w)))
                           vid false 0%Q (inject_Z (clock w)))
              Hrid)
    as (Hc & Hls & _).
  { cbn [localStorage]. apply lookup_insert_eq. }
  cbn zeta. rewrite Hc, Hls. cbn [sessionStorage].
  rewrite (lookup_insert_ne _ "userId" ("role_" +:+ entropy w (drawn w)))
    by apply role_key_not_userId.
  rewrite lookup_insert_eq.
  rewrite bool_decide_eq_true_2 by reflexivity.
  destruct v; split_and!; reflexivity.
Qed.

Lemma creator_opens_page_witness :
  roomState (fst (mount V2 (Some "k3x9q2a")
                        (snd (createRoom "abc123" Demo.emptyBrowser))))
  = Some (mkRoomState "k3x9q2a" "h7m1z0c" "abc123" false 0%Q
                      (inject_Z 1700000000000))
  /\ isHost (fst (mount V2 (Some "k3x9q2a")
                        (snd (createRoom "abc123" Demo.emptyBrowser)))) = true.
Proof.
  destruct (creator_opens_page V2 "abc123" Demo.emptyBrowser)
    as (Hrs & Hhost & _).
  - discriminate.
  - split; [exact Hrs | exact Hhost].
Defined.

(** X16.  How a listener gets to tracking.  Opening the page of a stored
    room in a tab that is not its host gives a page with the join overlay
    and no sync interval; once the player is built and ready and the
    participant has clicked join, in either order, the sync interval is set,
    on the state read at the opening and with that player. *)
Theorem listener_reaches_tracking
        (v : Version) (rid : string) (w : Browser) (st : RoomState)
        (p : YTPlayer) :
  rid <> "" ->
  fst (getRoomState rid w) = Some st ->
  videoId st <> "" ->
  sessionStorage w !! ("role_" +:+ rid) <> Some "host" ->
  let c := fst (mount v (Some rid) w) in
  isHost c = false
  /\ overlayShown c = true
  /\ syncLive c = false
  /\ exists c' : Component,
      exec v [ApiLoaded p; PlayerReady; ClickJoin] c w = Normal (c', w)
      /\ exec v [ClickJoin; ApiLoaded p; PlayerReady] c w = Normal (c', w)
      /\ syncLive c' = true
      /\ roomState c' = Some st
      /\ playerRef (hook c') = Some p.
Proof.
  rewrite getRoomState_pure. cbn [fst]. intros Hrid Hst Hvid Hrole.
  destruct (mount_present v rid w st Hrid Hst) as (Hc & _).
  cbn zeta. rewrite Hc. clear Hc.
  rewrite (bool_decide_eq_false_2 _ Hrole).
  destruct v.
  - split_and!; try reflexivity.
    eexists. split_and!; reflexivity.
  - split_and!; try reflexivity.
    exists (mkComponent (Some rid) (Some st) false true None 0%Q false true
                        (mkHook (Some p) true)).
    destruct (videoId st) as [| ch rest] eqn:Evid; [now contradiction Hvid |].
    unfold exec, step, react, environment, initPlayer, initPlayer_v2, andThen,
      ret, initialHook.
    repeat (progress (cbn; rewrite ?Evid)).
    split_and!; reflexivity.
Qed.

Lemma listener_reaches_tracking_witness :
  exists c' : Component,
    exec V2 [ApiLoaded Demo.laggingPlayer; PlayerReady; ClickJoin]
         (fst (mount V2 (Some "k3x9q2a") (inTab ∅ Demo.hostBrowser)))
         (inTab ∅ Demo.hostBrowser)
    = Normal (c', inTab ∅ Demo.hostBrowser)
    /\ syncLive c' = true.
Proof.
  destruct (listener_reaches_tracking V2 "k3x9q2a" (inTab ∅ Demo.hostBrowser)
                                      Demo.room Demo.laggingPlayer)
    as (_ & _ & _ & c' & Hrun & _ & Hlive & _).
  - discriminate.
  - reflexivity.
  - discriminate.
  - discriminate.
  - exists c'. split; [exact Hrun | exact Hlive].
Defined.

(* ===================================================================== *)
(** ** More on the sync loop *)
(* ===================================================================== *)

(** X18.  A player that is where the room state puts it is left alone:
    when the player's position equals the target and its state agrees with
    the room's (playing or buffering while the room plays; anything but
    playing while the room is paused), [checkSync] sends nothing.  So a seek
    that lands on its target is not repeated. *)
Theorem checkSync_settled
        (v : Version) (rs : RoomState) (ref : option YTPlayer) (now : number) :
  toDouble (getCurrentTime ref) = targetTime rs now ->
  (isPlaying rs = true ->
   getPlayerState ref = Some 1%Z \/ getPlayerState ref = Some 3%Z) ->
  (isPlaying rs = false -> getPlayerState ref <> Some 1%Z) ->
  checkSync v rs ref now = [].
Proof.
  intros Hat Hplaying Hpaused.
  destruct (checkSync_halves v rs ref now)
    as (seeks & pp & -> & -> & _ & _ & ->).
  rewrite Hat, (self_distance _ _ (MAX_DRIFT_positive v)).
  cbn [app]. destruct (isPlaying rs).
  - destruct (Hplaying eq_refl) as [-> | ->]; reflexivity.
  - now rewrite bool_decide_eq_false_2 by auto.
Qed.

Lemma checkSync_settled_witness :
  checkSync V1 Demo.room (Some (mkPlayer 13%Q 3 None)) (inject_Z 1700000003000)
  = [].
Proof.
  apply checkSync_settled.
  - vm_compute. reflexivity.
  - intros _. right. reflexivity.
  - discriminate.
Defined.

(** X19.  The two versions of the sync loop differ in tolerance only: on
    the same room state, player and clock they send the same play/pause
    commands, and whenever the second version (0.8 s) seeks, the first
    (0.5 s) seeks too, to the same target. *)
Theorem sync_versions_agree
        (rs : RoomState) (ref : option YTPlayer) (now : number) :
  filter (fun cmd => negb (isSeek cmd)) (checkSync V1 rs ref now)
  = filter (fun cmd => negb (isSeek cmd)) (checkSync V2 rs ref now)
  /\ incl (checkSync V2 rs ref now) (checkSync V1 rs ref now)
  /\ (MAX_DRIFT V1 <? MAX_DRIFT V2)%float = true.
Proof.
  destruct (checkSync_halves V1 rs ref now)
    as (seeks1 & pp1 & Hc1 & Hs1 & _ & Hf1 & Hp1).
  destruct (checkSync_halves V2 rs ref now)
    as (seeks2 & pp2 & Hc2 & Hs2 & _ & Hf2 & Hp2).
  split_and!.
  - rewrite Hf1, Hf2, Hp1, Hp2. reflexivity.
  - rewrite Hc1, Hc2. rewrite Hp1, <- Hp2.
    apply incl_app; [| now apply incl_appr, incl_refl].
    apply incl_appl. rewrite Hs1, Hs2.
    destruct (MAX_DRIFT V2 <? _)%float eqn:Hlt2; [| intros x []].
    rewrite (MAX_DRIFT_grew _ Hlt2). apply incl_refl.
  - reflexivity.
Qed.

(* ===================================================================== *)
(** ** pages/Home.tsx, in its two versions *)
(* ===================================================================== *)

From Stdlib Require Import Ascii.

(** A string is a sequence of 8-bit code units here; the regular expression
    of [extractVideoId] is matched by a backtracking matcher that tries, in
    order, what JavaScript's tries: the longer repetition before the shorter,
    the optional item before its absence, the left alternative before the
    right. *)
Module Regex.

Inductive CharSet : Type :=
| Lit (c : ascii)           (* the character itself *)
| AnyChar                   (* [.]: anything but a line terminator *)
| WordChar                  (* [\w] *)
| NoneOf (cs : list ascii). (* [[^...]] *)

Definition between (lo hi c : ascii) : bool :=
  (N_of_ascii lo <=? N_of_ascii c)%N && (N_of_ascii c <=? N_of_ascii hi)%N.

Definition accepts (cs : CharSet) (c : ascii) : bool :=
  match cs with
  | Lit c' => Ascii.eqb c c'
  | AnyChar => negb (Ascii.eqb c "010" || Ascii.eqb c "013")
  | WordChar => between "a" "z" c || between "A" "Z" c || between "0" "9" c
                || Ascii.eqb c "_"
  | NoneOf cs => negb (existsb (Ascii.eqb c) cs)
  end.

(** The expressions the source uses: a repetition is always of one
    character set. *)
Inductive Rx : Type :=
| Eps
| One (cs : CharSet)
| Star (cs : CharSet)       (* cs*  *)
| Opt (r : Rx)              (* r?   *)
| Seq (r1 r2 : Rx)
| Alt (r1 r2 : Rx)          (* r1|r2 *)
| Group (i : nat) (r : Rx). (* the i-th capturing group *)

(** A run of literal characters. *)
Fixpoint str (s : string) : Rx :=
  match s with
  | EmptyString => Eps
  | String c s => Seq (One (Lit c)) (str s)
  end.

(** [match[i]], for the groups that took part. *)
Definition Captures : Type := gmap nat string.

(** What was read between the input [s] and its remainder [s']. *)
Definition consumed (s s' : string) : string :=
  String.substring 0 (String.length s - String.length s') s.

Definition orElse {A} (x y : option A) : option A :=
  match x with
  | Some a => Some a
  | None => y
  end.

Fixpoint star (cs : CharSet) (s : string) (k : string -> option Captures)
  : option Captures :=
  match s with
  | EmptyString => k s
  | String c s' => if accepts cs c then orElse (star cs s' k) (k s) else k s
  end.

(** [run r s caps k]: match [r] at the head of [s], then go on with [k] on
    the remainder; [None] when every way of matching fails. *)
Fixpoint run (r : Rx) (s : string) (caps : Captures)
         (k : string -> Captures -> option Captures) : option Captures :=
  match r with
  | Eps => k s caps
  | One cs =>
      match s with
      | String c s' => if accepts cs c then k s' caps else None
      | EmptyString => None
      end
  | Star cs => star cs s (fun s' => k s' caps)
  | Opt r => orElse (run r s caps k) (k s caps)
  | Seq r1 r2 => run r1 s caps (fun s' caps' => run r2 s' caps' k)
  | Alt r1 r2 => orElse (run r1 s caps k) (run r2 s caps k)
  | Group i r =>
      run r s caps (fun s' caps' => k s' (<[i := consumed s s']> caps'))
  end.

(** [s.match(/^r/)]: the expression is anchored, so the match is tried at
    the start of [s] only. *)
Definition String_match (r : Rx) (s : string) : option Captures :=
  run r s ∅ (fun _ caps => Some caps).

End Regex.
Import Regex.

Module Home.

(** The expression of [extractVideoId], piece by piece:
    [^.*], then group 1, which is one of [(youtu.be\/)], [(v\/)],
    [(\/u\/\w\/)], [(embed\/)], [(watch\?)] (groups 2 to 6), then [\??],
    [v?], [=?], then group 7, any run of characters other than [#], [&] and
    [?], then any run of characters to the end of the line. *)
Definition markers : Rx :=
  Group 1
    (Alt (Group 2 (Seq (str "youtu") (Seq (One AnyChar) (str "be/"))))
    (Alt (Group 3 (str "v/"))
    (Alt (Group 4 (Seq (str "/u/") (Seq (One WordChar) (str "/"))))
    (Alt (Group 5 (str "embed/"))
         (Group 6 (str "watch?")))))).

Definition regExp : Rx :=
  Seq (Star AnyChar)
 (Seq markers
 (Seq (Opt (One (Lit "?")))
 (Seq (Opt (One (Lit "v")))
 (Seq (Opt (One (Lit "=")))
 (Seq (Group 7 (Star (NoneOf ["#"; "&"; "?"]%char)))
      (Star AnyChar)))))).

(** [(match && match[7].length === 11) ? match[7] : null]; group 7 takes
    part in every match. *)
Definition extractVideoId (url : string) : option string :=
  match String_match regExp url with
  | Some m =>
      match m !! 7 with
      | Some id => if (String.length id =? 11)%nat then Some id else None
      | None => None
      end
  | None => None
  end.

(** V2 *)
Definition DEMO_VIDEO : string := "https://www.youtube.com/watch?v=LXb3EKWsInQ".

(** White space for [trim], among the 8-bit code units. *)
Definition isWhiteSpace (c : ascii) : bool :=
  Ascii.is_space c || Ascii.eqb c "160".

Fixpoint trimStart (s : string) : string :=
  match s with
  | String c s' => if isWhiteSpace c then trimStart s' else s
  | EmptyString => EmptyString
  end.

Definition trim (s : string) : string :=
  String.rev (trimStart (String.rev (trimStart s))).

Record State : Type := mkState {
  videoUrl : string;
  joinId : string;
  isCreating : bool
}.

Definition initialState (v : Room.Version) : State :=
  match v with
  | V1 => mkState "https://www.youtube.com/watch?v=dQw4w9WgXcQ" "" false
  | V2 => mkState "" "" false
  end.

(** What a handler does besides changing the state. *)
Inductive Action : Type :=
| Nothing
| Alert (message : string)
| SetTimeout (videoId : string) (delay : Z)   (* then [created videoId] runs *)
| Navigate (path : string).

Definition invalidUrl (v : Room.Version) : string :=
  match v with
  | V1 => "Invalid YouTube URL"
  | V2 => "Please enter a valid YouTube URL"
  end.

Definition delay (v : Room.Version) : Z :=
  match v with V1 => 600 | V2 => 500 end.

Definition handleCreate (v : Room.Version) (st : State) : State * Action :=
  let urlToUse :=
      match v with
      | V1 => videoUrl st
      | V2 => if bool_decide (trim (videoUrl st) = "") then DEMO_VIDEO
              else trim (videoUrl st)
      end in
  match extractVideoId urlToUse with
  | None => (st, Alert (invalidUrl v))
  | Some id => (mkState (videoUrl st) (joinId st) true, SetTimeout id (delay v))
  end.

(** The button is disabled while [isCreating]. *)
Definition clickCreate (v : Room.Version) (st : State) : State * Action :=
  if isCreating st then (st, Nothing) else handleCreate v st.

(** The callback of the timeout. *)
Definition created (id : string) : Eff Action :=
  (let* room := createRoom id in
   ret (Navigate ("/room/" +:+ Types.roomId room)))%eff.

Definition handleJoin (st : State) : Action :=
  if bool_decide (trim (joinId st) = "") then Nothing
  else Navigate ("/room/" +:+ joinId st).

End Home.
Import Home.

(* ===================================================================== *)
(** ** What a successful match looks like *)
(* ===================================================================== *)

Section Matching.

Fixpoint allChars (P : ascii -> bool) (s : string) : bool :=
  match s with
  | EmptyString => true
  | String c s' => P c && allChars P s'
  end.

(** [Matches r s caps s' caps']: [r] can read a prefix of [s] leaving [s'],
    taking the captures from [caps] to [caps']. *)
Inductive Matches : Rx -> string -> Captures -> string -> Captures -> Prop :=
| M_Eps s caps : Matches Eps s caps s caps
| M_One cs c s caps :
    accepts cs c = true -> Matches (One cs) (String c s) caps s caps
| M_Star cs pre s caps :
    allChars (accepts cs) pre = true -> Matches (Star cs) (pre +:+ s) caps s caps
| M_OptSkip r s caps : Matches (Opt r) s caps s caps
| M_OptTake r s caps s' caps' :
    Matches r s caps s' caps' -> Matches (Opt r) s caps s' caps'
| M_Seq r1 r2 s caps s1 caps1 s2 caps2 :
    Matches r1 s caps s1 caps1 -> Matches r2 s1 caps1 s2 caps2 ->
    Matches (Seq r1 r2) s caps s2 caps2
| M_AltL r1 r2 s caps s' caps' :
    Matches r1 s caps s' caps' -> Matches (Alt r1 r2) s caps s' caps'
| M_AltR r1 r2 s caps s' caps' :
    Matches r2 s caps s' caps' -> Matches (Alt r1 r2) s caps s' caps'
| M_Group i r s caps s' caps' :
    Matches r s caps s' caps' ->
    Matches (Group i r) s caps s' (<[i := consumed s s']> caps').

Lemma append_cons (c : ascii) (s t : string) :
  String c s +:+ t = String c (s +:+ t).
Proof. reflexivity. Qed.

Lemma append_nil_l (t : string) : "" +:+ t = t.
Proof. reflexivity. Qed.

Lemma append_nil_r (s : string) : s +:+ "" = s.
Proof. induction s as [| c s IH]; [reflexivity |]. now rewrite append_cons, IH. Qed.

Lemma append_assoc (a b c : string) : (a +:+ b) +:+ c = a +:+ (b +:+ c).
Proof.
  induction a as [| ch a IH]; [reflexivity |].
  now rewrite !append_cons, IH.
Qed.

Lemma length_append (a b : string) :
  String.length (a +:+ b) = (String.length a + String.length b)%nat.
Proof.
  induction a as [| ch a IH]; [reflexivity |].
  rewrite append_cons. cbn [String.length]. now rewrite IH.
Qed.

Lemma substring_prefix (a b : string) :
  String.substring 0 (String.length a) (a +:+ b) = a.
Proof.
  induction a as [| ch a IH].
  - cbn. destruct b; reflexivity.
  - rewrite append_cons. cbn [String.length String.substring]. now rewrite IH.
Qed.

Lemma consumed_append (pre s' : string) : consumed (pre +:+ s') s' = pre.
Proof.
  unfold consumed. rewrite length_append.
  replace (String.length pre + String.length s' - String.length s')%nat
    with (String.length pre) by lia.
  apply substring_prefix.
Qed.

(** The matcher only succeeds along a match. *)
Lemma star_sound (cs : CharSet) (s : string) (k : string -> option Captures)
      (out : Captures) :
  star cs s k = Some out ->
  exists pre s' : string,
    s = pre +:+ s' /\ allChars (accepts cs) pre = true /\ k s' = Some out.
Proof.
  induction s as [| c s IH]; cbn [star].
  - intros H. exists "", "". auto.
  - destruct (accepts cs c) eqn:Hc.
    + destruct (star cs s k) as [r |] eqn:Hs; cbn [orElse].
      * intros [= ->]. destruct (IH eq_refl) as (pre & s' & -> & Hpre & Hk).
        exists (String c pre), s'. cbn [allChars]. rewrite Hc, Hpre. auto.
      * intros H. exists "", (String c s). auto.
    + intros H. exists "", (String c s). auto.
Qed.

Lemma run_sound (r : Rx) :
  forall (s : string) (caps : Captures)
         (k : string -> Captures -> option Captures) (out : Captures),
    run r s caps k = Some out ->
    exists (s' : string) (caps' : Captures),
      Matches r s caps s' caps' /\ k s' caps' = Some out.
Proof.
  induction r as [| cs | cs | r IH | r1 IH1 r2 IH2 | r1 IH1 r2 IH2 | i r IH];
    intros s caps k out; cbn [run].
  - intros H. eauto using Matches.
  - destruct s as [| c s]; [discriminate |].
    destruct (accepts cs c) eqn:Hc; [| discriminate].
    intros H. eauto using Matches.
  - intros H. apply star_sound in H as (pre & s' & -> & Hpre & Hk).
    eauto using Matches.
  - destruct (run r s caps k) as [o |] eqn:Hr; cbn [orElse].
    + intros [= ->]. apply IH in Hr as (s' & caps' & Hm & Hk).
      eauto using Matches.
    + intros H. eauto using Matches.
  - intros H. apply IH1 in H as (s1 & caps1 & Hm1 & H).
    apply IH2 in H as (s2 & caps2 & Hm2 & H). eauto using Matches.
  - destruct (run r1 s caps k) as [o |] eqn:Hr; cbn [orElse].
    + intros [= ->]. apply IH1 in Hr as (s' & caps' & Hm & Hk).
      eauto using Matches.
    + intros H. apply IH2 in H as (s' & caps' & Hm & Hk). eauto using Matches.
  - intros H. apply IH in H as (s' & caps' & Hm & Hk). eauto using Matches.
Qed.

(** A match reads a prefix. *)
Lemma Matches_prefix (r : Rx) (s : string) (caps : Captures) (s' : string)
      (caps' : Captures) :
  Matches r s caps s' caps' -> exists pre : string, s = pre +:+ s'.
Proof.
  induction 1 as [ s caps | cs c s caps Hc | cs pre s caps Hpre | r s caps
                 | r s caps s' caps' _ IH
                 | r1 r2 s caps s1 caps1 s2 caps2 _ IH1 _ IH2
                 | r1 r2 s caps s' caps' _ IH | r1 r2 s caps s' caps' _ IH
                 | i r s caps s' caps' _ IH ];
    try (now exists ""); try exact IH.
  - now exists (String c "").
  - now exists pre.
  - destruct IH1 as [p1 ->], IH2 as [p2 ->].
    exists (p1 +:+ p2). now rewrite append_assoc.
Qed.

(** A run of literal characters reads exactly them and captures nothing. *)
Lemma Matches_str (lit s : string) (caps : Captures) (s' : string)
      (caps' : Captures) :
  Matches (str lit) s caps s' caps' -> s = lit +:+ s' /\ caps' = caps.
Proof.
  revert s caps. induction lit as [| c lit IH]; intros s caps H; cbn [str] in H.
  - inversion H; subst. auto.
  - inversion H as [ | | | | | r1 r2 s0 caps0 s1 caps1 s2 caps2 H1 H2 | | | ];
      subst.
    inversion H1 as [ | cs c' s0 caps0 Hc | | | | | | | ]; subst.
    cbn [accepts] in Hc. apply Ascii.eqb_eq in Hc. subst c'.
    apply IH in H2 as [-> ->]. auto.
Qed.

End Matching.

Section Markers.

(** What group 1 can read. *)
Definition isMarker (m : string) : Prop :=
  (exists c : ascii, accepts AnyChar c = true /\ m = "youtu" +:+ String c "be/")
  \/ m = "v/"
  \/ (exists c : ascii, accepts WordChar c = true /\ m = "/u/" +:+ String c "/")
  \/ m = "embed/"
  \/ m = "watch?".

Lemma Matches_Seq_inv (r1 r2 : Rx) (s : string) (caps : Captures) (s2 : string)
      (caps2 : Captures) :
  Matches (Seq r1 r2) s caps s2 caps2 ->
  exists (s1 : string) (caps1 : Captures),
    Matches r1 s caps s1 caps1 /\ Matches r2 s1 caps1 s2 caps2.
Proof. intros H. inversion H; subst. eauto. Qed.

Lemma Matches_Star_inv (cs : CharSet) (s : string) (caps : Captures)
      (s' : string) (caps' : Captures) :
  Matches (Star cs) s caps s' caps' ->
  caps' = caps
  /\ exists pre : string, s = pre +:+ s' /\ allChars (accepts cs) pre = true.
Proof. intros H. inversion H; subst. eauto. Qed.

Lemma Matches_One_inv (cs : CharSet) (s : string) (caps : Captures)
      (s' : string) (caps' : Captures) :
  Matches (One cs) s caps s' caps' ->
  caps' = caps /\ exists c : ascii, s = String c s' /\ accepts cs c = true.
Proof. intros H. inversion H; subst. eauto. Qed.

Lemma Matches_OptLit_inv (ch : ascii) (s : string) (caps : Captures)
      (s' : string) (caps' : Captures) :
  Matches (Opt (One (Lit ch))) s caps s' caps' ->
  caps' = caps
  /\ exists o : string, s = o +:+ s' /\ (o = "" \/ o = String ch "").
Proof.
  intros H. inversion H as [ | | | | r s0 c0 s1 c1 H1 | | | | ]; subst.
  - split; [reflexivity |]. exists "". auto.
  - apply Matches_One_inv in H1 as (-> & c & -> & Hc).
    cbn [accepts] in Hc. apply Ascii.eqb_eq in Hc. subst c.
    split; [reflexivity |]. exists (String ch ""). auto.
Qed.

Lemma Matches_Group_inv (i : nat) (r : Rx) (s : string) (caps : Captures)
      (s' : string) (caps' : Captures) :
  Matches (Group i r) s caps s' caps' ->
  exists caps1 : Captures,
    Matches r s caps s' caps1 /\ caps' = <[i := consumed s s']> caps1.
Proof. intros H. inversion H; subst. eauto. Qed.

Lemma Matches_Alt_inv (r1 r2 : Rx) (s : string) (caps : Captures)
      (s' : string) (caps' : Captures) :
  Matches (Alt r1 r2) s caps s' caps' ->
  Matches r1 s caps s' caps' \/ Matches r2 s caps s' caps'.
Proof. intros H. inversion H; subst; auto. Qed.

(** Group 1 of [regExp] reads a marker. *)
Lemma group1_marker (s : string) (caps : Captures) (s' : string)
      (caps' : Captures) :
  Matches markers s caps s' caps' ->
  exists m : string, s = m +:+ s' /\ isMarker m.
Proof.
  intros H. unfold isMarker, markers in *.
  apply Matches_Group_inv in H as (c1 & H & _).
  apply Matches_Alt_inv in H as [H | H].
  { apply Matches_Group_inv in H as (c2 & H & _).
    apply Matches_Seq_inv in H as (s1 & c3 & H1 & H).
    apply Matches_Seq_inv in H as (s2 & c4 & H2 & H3).
    apply (Matches_str "youtu") in H1 as [-> _].
    apply Matches_One_inv in H2 as (_ & c & -> & Hc).
    apply (Matches_str "be/") in H3 as [-> _].
    exists ("youtu" +:+ String c "be/"). split; [reflexivity |]. eauto. }
  apply Matches_Alt_inv in H as [H | H].
  { apply Matches_Group_inv in H as (c2 & H & _).
    apply (Matches_str "v/") in H as [-> _]. exists "v/". auto. }
  apply Matches_Alt_inv in H as [H | H].
  { apply Matches_Group_inv in H as (c2 & H & _).
    apply Matches_Seq_inv in H as (s1 & c3 & H1 & H).
    apply Matches_Seq_inv in H as (s2 & c4 & H2 & H3).
    apply (Matches_str "/u/") in H1 as [-> _].
    apply Matches_One_inv in H2 as (_ & c & -> & Hc).
    apply (Matches_str "/") in H3 as [-> _].
    exists ("/u/" +:+ String c "/"). split; [reflexivity |]. eauto 6. }
  apply Matches_Alt_inv in H as [H | H].
  { apply Matches_Group_inv in H as (c2 & H & _).
    apply (Matches_str "embed/") in H as [-> _]. exists "embed/". auto 6. }
  apply Matches_Group_inv in H as (c2 & H & _).
  apply (Matches_str "watch?") in H as [-> _]. exists "watch?". auto 6.
Qed.

(** The shape of every match of [regExp]. *)
Lemma regExp_match_shape (url : string) (m : Captures) :
  String_match regExp url = Some m ->
  exists before marker q v e id after : string,
    url = before +:+ marker +:+ q +:+ v +:+ e +:+ id +:+ after
    /\ m !! 7 = Some id
    /\ allChars (accepts AnyChar) before = true
    /\ isMarker marker
    /\ (q = "" \/ q = "?") /\ (v = "" \/ v = "v") /\ (e = "" \/ e = "=")
    /\ allChars (accepts (NoneOf ["#"; "&"; "?"]%char)) id = true.
Proof.
  unfold String_match. intros H.
  apply run_sound in H as (s_end & caps & H & [= <-]).
  unfold regExp in H.
  apply Matches_Seq_inv in H as (s1 & c1 & H0 & H).
  apply Matches_Star_inv in H0 as (-> & before & -> & Hbefore).
  apply Matches_Seq_inv in H as (s2 & c2 & H1 & H).
  apply group1_marker in H1 as (marker & -> & Hmarker).
  apply Matches_Seq_inv in H as (s3 & c3 & Hq & H).
  apply Matches_OptLit_inv in Hq as (-> & q & -> & Hq).
  apply Matches_Seq_inv in H as (s4 & c4 & Hv & H).
  apply Matches_OptLit_inv in Hv as (-> & v & -> & Hv).
  apply Matches_Seq_inv in H as (s5 & c5 & He & H).
  apply Matches_OptLit_inv in He as (-> & e & -> & He).
  apply Matches_Seq_inv in H as (s6 & c6 & H7 & H).
  apply Matches_Group_inv in H7 as (c7 & H7 & ->).
  apply Matches_Star_inv in H7 as (-> & id & -> & Hid).
  apply Matches_Star_inv in H as (-> & rest & -> & _).
  exists before, marker, q, v, e, id, (rest +:+ s_end).
  split_and!; try assumption; try reflexivity.
  rewrite consumed_append. apply lookup_insert_eq.
Qed.

End Markers.

(** X21.  Whatever the input, an id that [extractVideoId] returns is 11
    characters long, contains none of [#], [&], [?], and stands in the URL
    right after one of the five markers ([youtu.be/] with any character for
    the dot, [v/], [/u/<word character>/], [embed/], [watch?]) and an
    optional [?], [v], [=] in that order; nothing before the marker is a
    line break. *)
Theorem extractVideoId_sound (url id : string) :
  extractVideoId url = Some id ->
  String.length id = 11%nat
  /\ allChars (accepts (NoneOf ["#"; "&"; "?"]%char)) id = true
  /\ exists before marker q v e after : string,
      url = before +:+ marker +:+ q +:+ v +:+ e +:+ id +:+ after
      /\ allChars (accepts AnyChar) before = true
      /\ isMarker marker
      /\ (q = "" \/ q = "?") /\ (v = "" \/ v = "v") /\ (e = "" \/ e = "=").
Proof.
  unfold extractVideoId.
  destruct (String_match regExp url) as [m |] eqn:Hm; [| discriminate].
  destruct (regExp_match_shape url m Hm)
    as (before & marker & q & v & e & id' & after & Hurl & H7 & Hb & Hmk & Hq
        & Hv & He & Hid).
  rewrite H7.
  destruct (String.length id' =? 11)%nat eqn:Hlen; [| discriminate].
  intros [= <-]. apply Nat.eqb_eq in Hlen.
  split_and!; try assumption.
  exists before, marker, q, v, e, after. split_and!; assumption.
Qed.

Lemma extractVideoId_sound_witness :
  extractVideoId "https://www.youtube.com/embed/dQw4w9WgXcQ?rel=0"
  = Some "dQw4w9WgXcQ"
  /\ String.length "dQw4w9WgXcQ" = 11%nat.
Proof.
  split; [vm_compute; reflexivity |].
  exact (proj1 (extractVideoId_sound
                  "https://www.youtube.com/embed/dQw4w9WgXcQ?rel=0"
                  "dQw4w9WgXcQ" eq_refl)).
Defined.

Section Canonical.

(** The characters of a video id. *)
Definition idChar (c : ascii) : bool :=
  accepts WordChar c || Ascii.eqb c "-".

(** The expression after its leading [.*]. *)
Definition afterStar (s : string) : option Captures :=
  run (Seq markers
      (Seq (Opt (One (Lit "?")))
      (Seq (Opt (One (Lit "v")))
      (Seq (Opt (One (Lit "=")))
      (Seq (Group 7 (Star (NoneOf ["#"; "&"; "?"]%char)))
           (Star AnyChar))))))
      s ∅ (fun _ caps => Some caps).

Lemma String_match_regExp (url : string) :
  String_match regExp url = star AnyChar url afterStar.
Proof. reflexivity. Qed.

Lemma idChar_plain (c : ascii) :
  idChar c = true ->
  accepts AnyChar c = true
  /\ accepts (NoneOf ["#"; "&"; "?"]%char) c = true
  /\ Ascii.eqb c "/" = false /\ Ascii.eqb c "?" = false
  /\ Ascii.eqb c "=" = false.
Proof.
  destruct c as [[] [] [] [] [] [] [] []]; intros H;
    first [ discriminate H | split_and!; reflexivity ].
Qed.

Lemma allChars_append (P : ascii -> bool) (a b : string) :
  allChars P (a +:+ b) = allChars P a && allChars P b.
Proof.
  induction a as [| c a IH]; [reflexivity |].
  rewrite append_cons. cbn [allChars]. now rewrite IH, andb_assoc.
Qed.

Lemma allChars_impl (P Q : ascii -> bool) (s : string) :
  (forall c, P c = true -> Q c = true) ->
  allChars P s = true -> allChars Q s = true.
Proof.
  intros HPQ. induction s as [| c s IH]; [reflexivity |]. cbn [allChars].
  intros H. apply andb_true_iff in H as [Hc Hs].
  now rewrite (HPQ c Hc), IH.
Qed.

Lemma marker_not_plain (m : string) : isMarker m -> allChars idChar m = false.
Proof.
  intros [(c & _ & ->) | [-> | [(c & _ & ->) | [-> | ->]]]];
    try reflexivity.
  rewrite !append_cons, append_nil_l. cbn [allChars].
  destruct (idChar c); reflexivity.
Qed.

Lemma afterStar_marker (b : string) (out : Captures) :
  afterStar b = Some out ->
  exists m rest : string, b = m +:+ rest /\ isMarker m.
Proof.
  unfold afterStar. intros H.
  apply run_sound in H as (s_end & caps & H & _).
  apply Matches_Seq_inv in H as (s1 & c1 & H1 & _).
  apply group1_marker in H1 as (m & -> & Hm). eauto.
Qed.

(** No marker starts inside a run of id characters. *)
Lemma afterStar_plain (a b : string) :
  allChars idChar (a +:+ b) = true -> afterStar b = None.
Proof.
  intros Hplain. destruct (afterStar b) as [out |] eqn:E; [| reflexivity].
  apply afterStar_marker in E as (m & rest & -> & Hm).
  rewrite !allChars_append, (marker_not_plain m Hm) in Hplain.
  rewrite andb_false_r in Hplain. discriminate.
Qed.

(** The leading [.*] settles on the last place from which the rest of the
    expression matches. *)
Lemma star_no_later (cs : CharSet) (s : string) (k : string -> option Captures) :
  (forall a b : string, s = a +:+ b -> a <> "" -> k b = None) ->
  star cs s k = k s.
Proof.
  intros Hlater. destruct s as [| c s]; [reflexivity |]. cbn [star].
  destruct (accepts cs c); [| reflexivity].
  destruct (star cs s k) as [out |] eqn:E; [| reflexivity].
  apply star_sound in E as (pre & s' & -> & _ & Hk).
  rewrite (Hlater (String c pre) s') in Hk; [discriminate | reflexivity |].
  discriminate.
Qed.

Lemma star_finds_last (cs : CharSet) (pre s : string)
      (k : string -> option Captures) (out : Captures) :
  allChars (accepts cs) pre = true ->
  (forall a b : string, s = a +:+ b -> a <> "" -> k b = None) ->
  k s = Some out ->
  star cs (pre +:+ s) k = Some out.
Proof.
  intros Hpre Hlater Hk. induction pre as [| c pre IH].
  - rewrite append_nil_l, star_no_later by exact Hlater. exact Hk.
  - cbn [allChars] in Hpre. apply andb_true_iff in Hpre as [Hc Hpre].
    rewrite append_cons. cbn [star]. rewrite Hc, (IH Hpre). reflexivity.
Qed.

(** A repetition that can read everything, with nothing to do afterwards,
    reads everything. *)
Lemma star_all (cs : CharSet) (s : string) (k : string -> option Captures)
      (out : Captures) :
  allChars (accepts cs) s = true -> k "" = Some out -> star cs s k = Some out.
Proof.
  intros Hs Hk. induction s as [| c s IH]; [exact Hk |].
  cbn [allChars] in Hs. apply andb_true_iff in Hs as [Hc Hs].
  cbn [star]. rewrite Hc, (IH Hs). reflexivity.
Qed.

Lemma consumed_all (s : string) : consumed s "" = s.
Proof.
  rewrite <- (append_nil_r s) at 1. apply consumed_append.
Qed.

Lemma cons_append_inv (c : ascii) (s a b : string) :
  String c s = a +:+ b ->
  (a = "" /\ b = String c s) \/ (exists a' : string, a = String c a' /\ s = a' +:+ b).
Proof.
  destruct a as [| c' a'].
  - rewrite append_nil_l. intros <-. now left.
  - rewrite append_cons. intros [= <- ->]. right. eauto.
Qed.

(** Group 7 and what follows it, on a run of id characters that ends the
    input. *)
Lemma group7_reads_id (id : string) (caps : Captures) :
  allChars idChar id = true ->
  run (Seq (Group 7 (Star (NoneOf ["#"; "&"; "?"]%char))) (Star AnyChar))
      id caps (fun _ caps => Some caps)
  = Some (<[7 := id]> caps).
Proof.
  intros Hid. cbn [run].
  apply star_all.
  - eapply allChars_impl; [| exact Hid]. intros c Hc.
    now apply idChar_plain in Hc as (_ & H & _).
  - cbn [star]. now rewrite consumed_all.
Qed.

End Canonical.

Section Links.

Ltac eval_chars :=
  repeat match goal with
         | |- context [Ascii.eqb ?a ?b] =>
             let r := eval vm_compute in (Ascii.eqb a b) in
             lazymatch r with
             | true => change (Ascii.eqb a b) with true
             | false => change (Ascii.eqb a b) with false
             end
         end;
  cbn [run str accepts orElse].

(** [b] starts no marker: by running the matcher, or from the shape of the
    markers when the id is reached. *)
Ltac no_marker Hid :=
  first
    [ reflexivity
    | let E := fresh "E" in
      let Heq := fresh "Heq" in
      match goal with
      | |- afterStar ?b = None =>
          destruct (afterStar b) as [? |] eqn:E; [exfalso | reflexivity];
          apply afterStar_marker in E as (? & ? & Heq & Hm);
          destruct Hm as [(c0 & _ & ->) | [-> | [(c0 & _ & ->) | [-> | ->]]]];
          repeat (rewrite append_cons in Heq || rewrite append_nil_l in Heq);
          try discriminate Heq;
          injection Heq as ->;
          cbn [allChars] in Hid;
          repeat match type of Hid with
                 | context [idChar ?x] =>
                     let Ex := fresh "Ex" in
                     destruct (idChar x) eqn:Ex;
                     [ try (vm_compute in Ex; discriminate Ex) | ];
                     cbn [andb] in Hid
                 end;
          discriminate Hid
      end ].

Ltac peel H Hid :=
  apply cons_append_inv in H as [[-> ->] | (? & -> & H)]; [no_marker Hid |].

(** What follows the marker. *)
Definition idTail : Rx :=
  Seq (Opt (One (Lit "?")))
 (Seq (Opt (One (Lit "v")))
 (Seq (Opt (One (Lit "=")))
 (Seq (Group 7 (Star (NoneOf ["#"; "&"; "?"]%char)))
      (Star AnyChar)))).

Lemma afterStar_unfold (s : string) :
  afterStar s
  = run markers s ∅
        (fun s' caps' => run idTail s' caps' (fun _ caps => Some caps)).
Proof. reflexivity. Qed.

Lemma afterStar_id (id : string) (caps : Captures) (c : ascii) (rest : string) :
  id = String c rest ->
  allChars idChar id = true ->
  run idTail id caps (fun _ caps => Some caps)
  = Some (<[7 := if Ascii.eqb c "v" then rest else id]> caps).
Proof.
  intros -> Hid. pose proof Hid as Hall.
  cbn [allChars] in Hid. apply andb_true_iff in Hid as [Hc Hrest].
  destruct (idChar_plain c Hc) as (_ & _ & _ & Hq & He).
  unfold idTail. cbn [run accepts]. rewrite Hq, He. cbn [orElse].
  destruct (Ascii.eqb c "v") eqn:Hv; cbn [orElse].
  - destruct rest as [| c1 rest1].
    + cbn [star orElse]. reflexivity.
    + cbn [allChars] in Hrest. apply andb_true_iff in Hrest as [Hc1 Hrest1].
      destruct (idChar_plain c1 Hc1) as (_ & _ & _ & _ & He1).
      rewrite He1. cbn [orElse].
      change (star (NoneOf ["#"; "&"; "?"]%char) (String c1 rest1) _)
        with (run (Seq (Group 7 (Star (NoneOf ["#"; "&"; "?"]%char)))
                       (Star AnyChar))
                  (String c1 rest1) caps (fun _ caps => Some caps)).
      rewrite group7_reads_id by (cbn [allChars]; now rewrite Hc1, Hrest1).
      reflexivity.
  - change (star (NoneOf ["#"; "&"; "?"]%char) (String c rest) _)
      with (run (Seq (Group 7 (Star (NoneOf ["#"; "&"; "?"]%char)))
                     (Star AnyChar))
                (String c rest) caps (fun _ caps => Some caps)).
    now apply group7_reads_id.
Qed.

Lemma afterStar_watch (id : string) :
  allChars idChar id = true ->
  exists out : Captures,
    afterStar ("watch?v=" +:+ id) = Some out /\ out !! 7 = Some id.
Proof.
  intros Hid. unfold afterStar. rewrite !append_cons, append_nil_l.
  cbn -[consumed insert lookup].
  eexists. split.
  - erewrite star_all; [cbn [orElse]; reflexivity | | cbn [star]; reflexivity].
    eapply allChars_impl; [| exact Hid]. intros c Hc.
    now apply idChar_plain in Hc as (_ & H & _).
  - rewrite consumed_all. apply lookup_insert_eq.
Qed.

Lemma afterStar_short (marker id : string) (c : ascii) (rest : string) :
  marker = "youtu.be/" \/ marker = "embed/" ->
  id = String c rest ->
  allChars idChar id = true ->
  exists out : Captures,
    afterStar (marker +:+ id) = Some out
    /\ out !! 7 = Some (if Ascii.eqb c "v" then rest else id).
Proof.
  intros Hm Hshape Hid. rewrite afterStar_unfold.
  destruct Hm as [-> | ->]; rewrite !append_cons, append_nil_l;
    cbn [run markers str accepts]; eval_chars;
    rewrite (afterStar_id id _ c rest Hshape Hid); cbn [orElse];
    (eexists; split; [reflexivity | apply lookup_insert_eq]).
Qed.

Lemma no_later_watch (id a b : string) :
  allChars idChar id = true ->
  "watch?v=" +:+ id = a +:+ b -> a <> "" -> afterStar b = None.
Proof.
  intros Hid H Ha. rewrite !append_cons, append_nil_l in H.
  apply cons_append_inv in H as [[-> _] | (? & -> & H)]; [congruence |].
  do 7 peel H Hid.
  eapply afterStar_plain. rewrite <- H. exact Hid.
Qed.

Lemma no_later_short (marker id a b : string) :
  marker = "youtu.be/" \/ marker = "embed/" ->
  allChars idChar id = true ->
  marker +:+ id = a +:+ b -> a <> "" -> afterStar b = None.
Proof.
  intros Hm Hid H Ha.
  destruct Hm as [-> | ->]; rewrite !append_cons, append_nil_l in H;
    (apply cons_append_inv in H as [[-> _] | (? & -> & H)]; [congruence |]).
  - do 8 peel H Hid.
    eapply afterStar_plain. rewrite <- H. exact Hid.
  - do 5 peel H Hid.
    eapply afterStar_plain. rewrite <- H. exact Hid.
Qed.

End Links.

(** X22.  A watch link is accepted: for any prefix without a line break
    and any id of 11 characters among letters, digits, [_] and [-],
    [extractVideoId] of [<prefix>watch?v=<id>] is the id. *)
Theorem extractVideoId_watch_url (base id : string) :
  allChars (accepts AnyChar) base = true ->
  String.length id = 11%nat ->
  allChars idChar id = true ->
  extractVideoId (base +:+ "watch?v=" +:+ id) = Some id.
Proof.
  intros Hbase Hlen Hid. unfold extractVideoId. rewrite String_match_regExp.
  destruct (afterStar_watch id Hid) as (out & Hk & H7).
  rewrite (star_finds_last AnyChar base ("watch?v=" +:+ id) afterStar out Hbase
             (fun a b => no_later_watch id a b Hid) Hk).
  now rewrite H7, Hlen.
Qed.

Lemma extractVideoId_watch_url_witness :
  extractVideoId "https://www.youtube.com/watch?v=LXb3EKWsInQ"
  = Some "LXb3EKWsInQ".
Proof.
  apply (extractVideoId_watch_url "https://www.youtube.com/" "LXb3EKWsInQ");
    reflexivity.
Defined.

(** X23.  A short link or an embed link is accepted unless its id begins
    with [v]: for an id of 11 characters among letters, digits, [_] and [-],
    [extractVideoId] of [<prefix>youtu.be/<id>] or [<prefix>embed/<id>] is
    the id when the id's first character is not [v]; when it is, the [v?] of
    the expression takes it, ten characters are left, and the link is
    rejected. *)
Theorem extractVideoId_short_link
        (base marker : string) (c : ascii) (rest : string) :
  marker = "youtu.be/" \/ marker = "embed/" ->
  allChars (accepts AnyChar) base = true ->
  String.length (String c rest) = 11%nat ->
  allChars idChar (String c rest) = true ->
  extractVideoId (base +:+ marker +:+ String c rest)
  = if Ascii.eqb c "v" then None else Some (String c rest).
Proof.
  intros Hm Hbase Hlen Hid. unfold extractVideoId. rewrite String_match_regExp.
  destruct (afterStar_short marker (String c rest) c rest Hm eq_refl Hid)
    as (out & Hk & H7).
  rewrite (star_finds_last AnyChar base (marker +:+ String c rest) afterStar out
             Hbase (fun a b => no_later_short marker _ a b Hm Hid) Hk).
  rewrite H7. cbn [String.length] in Hlen.
  destruct (Ascii.eqb c "v").
  - injection Hlen as ->. reflexivity.
  - cbn [String.length]. now rewrite Hlen.
Qed.

Lemma extractVideoId_short_link_witness :
  extractVideoId "https://youtu.be/vQw4w9WgXcQ" = None
  /\ extractVideoId "https://youtu.be/dQw4w9WgXcQ" = Some "dQw4w9WgXcQ".
Proof.
  split.
  - apply (extractVideoId_short_link "https://" "youtu.be/" "v" "Qw4w9WgXcQ");
      [now left | reflexivity ..].
  - apply (extractVideoId_short_link "https://" "youtu.be/" "d" "Qw4w9WgXcQ");
      [now left | reflexivity ..].
Defined.

(* ===================================================================== *)
(** ** The home page's handlers *)
(* ===================================================================== *)

Section HomePage.

(** The URL [handleCreate] extracts the id from. *)
Definition urlToUse (v : Room.Version) (st : State) : string :=
  match v with
  | Room.V1 => videoUrl st
  | Room.V2 => if bool_decide (trim (videoUrl st) = "") then DEMO_VIDEO
               else trim (videoUrl st)
  end.

Lemma handleCreate_unfold (v : Room.Version) (st : State) :
  handleCreate v st
  = match extractVideoId (urlToUse v st) with
    | None => (st, Alert (invalidUrl v))
    | Some id => (mkState (videoUrl st) (joinId st) true, SetTimeout id (delay v))
    end.
Proof. destruct v; reflexivity. Qed.

Lemma allChars_rev_app (P : ascii -> bool) (s acc : string) :
  allChars P (String.rev_app s acc) = allChars P s && allChars P acc.
Proof.
  revert acc. induction s as [| c s IH]; intros acc; [reflexivity |].
  cbn [String.rev_app allChars]. rewrite IH. cbn [allChars].
  destruct (P c), (allChars P s), (allChars P acc); reflexivity.
Qed.

Lemma allChars_rev (P : ascii -> bool) (s : string) :
  allChars P (String.rev s) = allChars P s.
Proof. unfold String.rev. rewrite allChars_rev_app. cbn. apply andb_true_r. Qed.

Lemma allChars_trimStart (s : string) :
  allChars isWhiteSpace (trimStart s) = allChars isWhiteSpace s.
Proof.
  induction s as [| c s IH]; [reflexivity |]. cbn [trimStart].
  destruct (isWhiteSpace c) eqn:Hc; [| reflexivity].
  cbn [allChars]. now rewrite Hc, IH.
Qed.

Lemma trimStart_empty (s : string) :
  trimStart s = "" <-> allChars isWhiteSpace s = true.
Proof.
  induction s as [| c s IH]; [easy |]. cbn [trimStart allChars].
  destruct (isWhiteSpace c); [exact IH | easy].
Qed.

Lemma rev_app_empty (s acc : string) :
  String.rev_app s acc = "" <-> s = "" /\ acc = "".
Proof.
  revert acc. induction s as [| c s IH]; intros acc; [easy |].
  cbn [String.rev_app]. rewrite IH. easy.
Qed.

(** [trim] leaves nothing exactly of the strings made of white space. *)
Lemma trim_empty (s : string) :
  trim s = "" <-> allChars isWhiteSpace s = true.
Proof.
  unfold trim, String.rev at 1. rewrite rev_app_empty, trimStart_empty.
  rewrite allChars_rev, allChars_trimStart. easy.
Qed.

Lemma marker_not_blank (m : string) :
  isMarker m -> allChars isWhiteSpace m = false.
Proof.
  intros [(c & _ & ->) | [-> | [(c & _ & ->) | [-> | ->]]]]; reflexivity.
Qed.

(** A string of white space holds no video id. *)
Lemma extractVideoId_blank (s : string) :
  allChars isWhiteSpace s = true -> extractVideoId s = None.
Proof.
  intros Hblank. unfold extractVideoId.
  destruct (String_match regExp s) as [m |] eqn:Hm; [| reflexivity].
  exfalso.
  destruct (regExp_match_shape s m Hm)
    as (before & marker & q & v & e & id & after & -> & _ & _ & Hmk & _).
  rewrite !allChars_append, (marker_not_blank marker Hmk) in Hblank.
  rewrite andb_false_r in Hblank. discriminate.
Qed.

End HomePage.

(** X24.  Creating a room from the home page.  A URL from which no id is
    extracted gets the alert and changes nothing, the page's state
    included.  Otherwise the click marks the page as creating and schedules
    the creation, a second click then does nothing, the id is 11 characters
    long, and when the timeout runs, the room is stored with that id as its
    [videoId], paused at 0, and the page navigated to, [/room/<roomId>],
    opens as its host with that state and no error. *)
Theorem home_create_flow (v : Room.Version) (st : State) (w : Browser) :
  isCreating st = false ->
  (extractVideoId (urlToUse v st) = None ->
   clickCreate v st = (st, Alert (invalidUrl v)))
  /\ (forall id : string,
        extractVideoId (urlToUse v st) = Some id ->
        clickCreate v st
        = (mkState (videoUrl st) (joinId st) true, SetTimeout id (delay v))
        /\ clickCreate v (fst (clickCreate v st))
           = (fst (clickCreate v st), Nothing)
        /\ String.length id = 11%nat
        /\ exists room : RoomState,
            created id w = (Navigate ("/room/" +:+ Types.roomId room),
                            snd (createRoom id w))
            /\ room = mkRoomState (fst (generateId w))
                                  (fst (generateId (snd (generateId w))))
                                  id false 0%Q (fst (Date_now w))
            /\ fst (getRoomState (Types.roomId room) (snd (created id w)))
               = Some room
            /\ (Types.roomId room <> "" ->
                forall rv : Room.Version,
                  roomState (fst (mount rv (Some (Types.roomId room))
                                        (snd (created id w)))) = Some room
                  /\ isHost (fst (mount rv (Some (Types.roomId room))
                                        (snd (created id w)))) = true
                  /\ error (fst (mount rv (Some (Types.roomId room))
                                       (snd (created id w)))) = None)).
Proof.
  intros Hidle. unfold clickCreate. rewrite Hidle, handleCreate_unfold.
  split; [now intros -> |].
  intros id Hid. rewrite Hid. cbn [fst isCreating].
  split_and!; try reflexivity.
  - unfold extractVideoId in Hid.
    destruct (String_match regExp (urlToUse v st)) as [m |]; [| discriminate].
    destruct (m !! 7) as [g |]; [| discriminate].
    destruct (String.length g =? 11)%nat eqn:Hlen; [| discriminate].
    injection Hid as <-. now apply Nat.eqb_eq.
  - unfold created. rewrite bind_run, createRoom_run. unfold ret. cbn [fst snd].
    eexists. split; [reflexivity |]. split; [reflexivity |].
    cbn [Types.roomId]. split.
    + rewrite getRoomState_pure. cbn [fst localStorage]. apply lookup_insert_eq.
    + intros Hrid rv.
      match goal with
      | |- context [mount rv (Some ?rid) ?w1] =>
          destruct (mount_present rv rid w1
                      (mkRoomState (entropy w (drawn w))
                                   (entropy w (S (drawn w))) id false 0%Q
                                   (inject_Z (clock w)))
                      Hrid) as (Hc & _)
      end.
      { cbn [localStorage]. apply lookup_insert_eq. }
      rewrite Hc. cbn [roomState isHost error sessionStorage].
      rewrite (lookup_insert_ne _ "userId" ("role_" +:+ entropy w (drawn w)))
        by apply role_key_not_userId.
      rewrite lookup_insert_eq.
      split_and!; reflexivity.
Qed.

Lemma home_create_flow_witness :
  clickCreate Room.V1 (initialState Room.V1)
  = (mkState "https://www.youtube.com/watch?v=dQw4w9WgXcQ" "" true,
     SetTimeout "dQw4w9WgXcQ" 600)
  /\ fst (created "dQw4w9WgXcQ" Demo.emptyBrowser) = Navigate "/room/k3x9q2a".
Proof.
  destruct (home_create_flow Room.V1 (initialState Room.V1) Demo.emptyBrowser
                             eq_refl) as [_ Hvalid].
  destruct (Hvalid "dQw4w9WgXcQ") as (Hclick & _ & _ & room & Hnav & -> & _).
  - vm_compute. reflexivity.
  - split; [exact Hclick |]. rewrite Hnav. reflexivity.
Defined.

(** X25.  Blank input on the home page.  With a URL field of white space
    only (or empty), the first version alerts and schedules nothing, while
    the second falls back to the demo video and schedules its creation.
    [handleJoin] does nothing exactly when the room id field is white space
    only, and otherwise navigates to [/room/] followed by the field as
    typed, untrimmed. *)
Theorem home_blank_input (st : State) :
  (allChars isWhiteSpace (videoUrl st) = true ->
   handleCreate Room.V1 st = (st, Alert "Invalid YouTube URL")
   /\ handleCreate Room.V2 st
      = (mkState (videoUrl st) (joinId st) true, SetTimeout "LXb3EKWsInQ" 500))
  /\ (handleJoin st = Nothing <-> allChars isWhiteSpace (joinId st) = true)
  /\ (allChars isWhiteSpace (joinId st) = false ->
      handleJoin st = Navigate ("/room/" +:+ joinId st)).
Proof.
  split_and!.
  - intros Hblank. rewrite !handleCreate_unfold. cbn [urlToUse].
    rewrite (extractVideoId_blank _ Hblank).
    rewrite bool_decide_eq_true_2 by now apply trim_empty.
    split; reflexivity.
  - unfold handleJoin. rewrite <- trim_empty.
    case_bool_decide as Hempty; split; intros Hx;
      first [ assumption | reflexivity | discriminate | contradiction ].
  - intros Hsome. unfold handleJoin.
    rewrite bool_decide_eq_false_2; [reflexivity |].
    rewrite trim_empty, Hsome. discriminate.
Qed.
